(** * Nazuna: session manager and group-event policy engine (src/dados/src/connect.js)

    A shallow embedding of the connection module of the Nazuna bot.
    Strings are byte strings (UTF-8 bytes as [ascii]); the external
    messaging library is an environment of answers for each external call,
    and every call the handlers issue is recorded in a trace. *)

From Stdlib Require Import String Ascii List Bool Arith ZArith Lia.
Import ListNotations.
Open Scope string_scope.

(* ================================================================= *)
(** ** JavaScript string primitives *)

(** [s.split(sep)[0]]: the text before the first [sep]. *)
Fixpoint split_first (sep : ascii) (s : string) : string :=
  match s with
  | EmptyString => EmptyString
  | String c r => if Ascii.eqb c sep then EmptyString else String c (split_first sep r)
  end.

(** [s.startsWith(pre)]. *)
Definition starts_with (s pre : string) : bool := String.prefix pre s.

(** [s.substring(0, n)]. *)
Definition substring0 (n : nat) (s : string) : string := substring 0 n s.

(** The suffix of [s] from index [n]. *)
Definition drop_n (n : nat) (s : string) : string := substring n (String.length s) s.

(** [String(n)] for a non-negative integer [n]. *)
Fixpoint digits_aux (fuel n : nat) (acc : string) : string :=
  match fuel with
  | O => acc
  | S f =>
      let acc' := String (ascii_of_nat (48 + Nat.modulo n 10)) acc in
      if Nat.ltb n 10 then acc' else digits_aux f (Nat.div n 10) acc'
  end.

Definition js_number_to_string (n : nat) : string := digits_aux (S n) n "".

(** [GetSubstitution] of ECMA-262 for a string search value (no captures,
    no named groups): [$$], [$&], [$`] and [$'] are expanded, every other
    character (including [$1] and [$<]) is kept. [before] is the text before
    the match, [after] the text after it. *)
Fixpoint get_subst (matched before after rep : string) : string :=
  match rep with
  | EmptyString => EmptyString
  | String c r =>
      if Ascii.eqb c "$"%char then
        match r with
        | String d r' =>
            if Ascii.eqb d "$"%char then String "$"%char (get_subst matched before after r')
            else if Ascii.eqb d "&"%char then matched ++ get_subst matched before after r'
            else if Ascii.eqb d "`"%char then before ++ get_subst matched before after r'
            else if Ascii.eqb d "'"%char then after ++ get_subst matched before after r'
            else String c (String d (get_subst matched before after r'))
        | EmptyString => String c EmptyString
        end
      else String c (get_subst matched before after r)
  end.

(** [whole.replaceAll(pat, rep)] with a string [pat] and a string [rep]:
    the matches are the non-overlapping occurrences of [pat] found left to
    right (an empty [pat] matches at every position, the end included).
    [rest] is the suffix of [whole] from position [pos]; [skip] counts the
    characters of the current match still to be dropped. *)
Fixpoint replace_all_scan (pat rep whole : string) (skip pos : nat) (rest : string)
  : string :=
  match rest with
  | EmptyString =>
      if Nat.eqb (String.length pat) 0 && Nat.eqb skip 0
      then get_subst pat (substring 0 pos whole) EmptyString rep
      else EmptyString
  | String c r =>
      match skip with
      | S k => replace_all_scan pat rep whole k (S pos) r
      | O =>
          if String.prefix pat rest then
            let s := get_subst pat (substring 0 pos whole)
                       (drop_n (String.length pat) rest) rep in
            match String.length pat with
            | O => s ++ String c (replace_all_scan pat rep whole 0 (S pos) r)
            | S k => s ++ replace_all_scan pat rep whole k (S pos) r
            end
          else String c (replace_all_scan pat rep whole 0 (S pos) r)
      end
  end.

Definition js_replaceAll (whole pat rep : string) : string :=
  replace_all_scan pat rep whole 0 0 whole.

(** [a || b] on an optional string: [undefined] and [""] are falsy. *)
Definition js_or_str (a : option string) (b : string) : string :=
  match a with
  | Some s => if String.eqb s "" then b else s
  | None => b
  end.

(** Truthiness of an optional string field. *)
Definition truthy_str (a : option string) : bool :=
  match a with Some s => negb (String.eqb s "") | None => false end.

(** Template literal [${x}] of an optional string field. *)
Definition show_opt (a : option string) : string :=
  match a with Some s => s | None => "undefined" end.

Fixpoint assoc_get {V} (k : string) (l : list (string * V)) : option V :=
  match l with
  | [] => None
  | (k', v) :: l' => if String.eqb k k' then Some v else assoc_get k l'
  end.

(* ================================================================= *)
(** ** Data model *)

Inductive GroupAction := Add | Remove | Promote | Demote.

(** A [group-participants.update] event; the protocol library always lists
    at least one participant, [participants[0]] is [ev_first]. *)
Record MembershipEvent := {
  ev_id : string;
  ev_action : GroupAction;
  ev_first : string;
  ev_rest : list string;
  ev_author : option string
}.

(** Group metadata: subject, description and participant list. *)
Record GroupMetadata := {
  subject : string;
  desc : option string;
  participants : list string
}.

(** One value of the [blacklist] map of a group file: [{ reason }]. *)
Record BlacklistEntry := { reason : option string }.

Record ExitConfig := {
  exit_enabled : bool;
  exit_text : option string;
  exit_image : option string
}.

(** The per-group configuration file [database/grupos/<id>.json]. *)
Record GroupConfig := {
  x9 : bool;
  antifake : bool;
  antipt : bool;
  blacklist : option (list (string * BlacklistEntry));
  bemvindo : bool;
  textbv : option string;
  welcome_image : option string;   (* jsonGp.welcome?.image *)
  exit : option ExitConfig
}.

Inductive Image :=
| ImgUrl (url : string)
| ImgBanner (avatar title message : string).

(** The content passed to [sendMessage]. *)
Inductive Message :=
| MText (text : string) (mentions : list string)
| MImage (image : Image) (caption : string) (mentions : list string).

(** Calls issued by the handlers, in order. *)
Inductive Act :=
| AFetchMeta (g : string)                 (* NazunaSock.groupMetadata(g) *)
| ACacheSet (g : string)                  (* groupCache.set(g, ...) *)
| AReadConfig (g : string)                (* fs.readFile(<g>.json) *)
| ARemove (g : string) (ps : list string) (* groupParticipantsUpdate(g, ps, 'remove') *)
| ASend (g : string) (m : Message)        (* sendMessage(g, m) *)
| AProfilePic (p : string)                (* profilePictureUrl(p, 'image') *)
| ALog (line : string)                    (* console.error *)
| AInfo (line : string)                   (* console.log *)
| ACacheMessage (id : string)             (* messagesCache.set(id, ...) *)
| ARouter (sock : string) (id : string)   (* indexModule(sock, info, ...) *)
| ACreateSocket (authDir : string) (isPrimary : bool) (* createBotSocket *)
| ARmDir (dir : string)                   (* fs.rm(dir, { recursive, force }) *)
| AEnd                                    (* NazunaSock.end() *)
| AStartNazu                              (* startNazu() *)
| AExit (code : nat)                      (* process.exit(code) *)
| ASchedule (ms : nat) (a : Act).         (* setTimeout(() => a, ms) *)

(** Answers of the external world to the handler's calls. *)
Record Env := {
  self_user_id : string;                              (* NazunaSock.user.id *)
  cache_get : string -> option GroupMetadata;         (* groupCache.get *)
  fetch_meta : string -> option GroupMetadata;        (* None: rejected, caught to null *)
  read_config : string -> option GroupConfig;         (* None: missing file or bad JSON *)
  remove_err : string -> list string -> option string;(* Some msg: the call rejects *)
  send_err : string -> Message -> option string;
  picture : string -> option string;                  (* None: the call rejects *)
  banner_err : string -> option string                (* Some msg: the welcome banner's
                                                         build() rejects, given the avatar *)
}.

(* ================================================================= *)
(** ** Trace and exception monad for one async handler *)

Inductive Outcome (A : Type) := Ok (a : A) | Throw (e : string).
Arguments Ok {A} a.
Arguments Throw {A} e.

Definition M (A : Type) : Type := (Outcome A * list Act)%type.

Definition ret {A} (a : A) : M A := (Ok a, []).

Definition bind {A B} (m : M A) (f : A -> M B) : M B :=
  match m with
  | (Ok a, t1) => let (r, t2) := f a in (r, (t1 ++ t2)%list)
  | (Throw e, t1) => (Throw e, t1)
  end.

Notation "'let*' x ':=' m 'in' k" := (bind m (fun x => k))
  (at level 200, x name, m at level 100, k at level 200).
Notation "m ;; k" := (bind m (fun _ => k)) (at level 100, right associativity).

(** [try { m } catch (e) { h(e) }]. *)
Definition try_catch {A} (m : M A) (h : string -> M A) : M A :=
  match m with
  | (Throw e, t1) => let (r, t2) := h e in (r, (t1 ++ t2)%list)
  | ok => ok
  end.

Definition emit (a : Act) : M unit := (Ok tt, [a]).

Definition raise {A} (e : string) : M A := (Throw e, []).

Definition call_remove (env : Env) (g : string) (ps : list string) : M unit :=
  emit (ARemove g ps);;
  match remove_err env g ps with None => ret tt | Some e => raise e end.

Definition call_send (env : Env) (g : string) (m : Message) : M unit :=
  emit (ASend g m);;
  match send_err env g m with None => ret tt | Some e => raise e end.

Definition call_picture (env : Env) (p : string) : M string :=
  emit (AProfilePic p);;
  match picture env p with Some u => ret u | None => raise "profile picture unavailable" end.

Definition log_error (line : string) : M unit := emit (ALog line).

Definition log_info (line : string) : M unit := emit (AInfo line).

(* ================================================================= *)
(** ** The [group-participants.update] handler (connect.js, lines 106-232) *)

Section Participants.

Variable env : Env.
Variable inf : MembershipEvent.

Let from := ev_id inf.
Let p := ev_first inf.

Definition is_add : bool := match ev_action inf with Add => true | _ => false end.

(** [participants[0].startsWith(NazunaSock.user.id.split(':')[0])] *)
Definition self_event : bool := starts_with p (split_first ":" (self_user_id env)).

(** Lines 110-115: cached metadata, else a fetch whose rejection is [null]. *)
Definition get_group_metadata : M (option GroupMetadata) :=
  match cache_get env from with
  | Some gm => ret (Some gm)
  | None =>
      emit (AFetchMeta from);;
      match fetch_meta env from with
      | None => ret None
      | Some gm => emit (ACacheSet from);; ret (Some gm)
      end
  end.

(** Lines 117-123: [JSON.parse(await fs.readFile(...))] inside try/catch. *)
Definition load_group_config : M (option GroupConfig) :=
  emit (AReadConfig from);; ret (read_config env from).

(** Lines 125-132. *)
Definition x9_rule (jsonGp : GroupConfig) : M unit :=
  let promoted := match ev_action inf with Promote => true | _ => false end in
  let demoted := match ev_action inf with Demote => true | _ => false end in
  if (promoted || demoted) && x9 jsonGp then
    let action := if promoted then "promovido a administrador"
                  else "rebaixado de administrador" in
    let by' := js_or_str (ev_author inf) "alguém" in
    call_send env from
      (MText ("🚨 Atenção! @" ++ split_first "@" p ++ " foi " ++ action ++ " por @"
              ++ split_first "@" by' ++ ".") [p; by'])
  else ret tt.

Definition antifake_text (participant : string) : string :=
  "🚫 @" ++ split_first "@" participant
  ++ " foi removido por suspeita de número falso (código de país não permitido).".

(** Lines 134-144. *)
Definition antifake_rule (jsonGp : GroupConfig) : M unit :=
  if is_add && antifake jsonGp then
    let participant := p in
    let countryCode := substring0 2 (split_first "@" participant) in
    if negb (existsb (String.eqb countryCode) ["55"; "35"]) then
      call_remove env from [participant];;
      call_send env from (MText (antifake_text participant) [participant])
    else ret tt
  else ret tt.

Definition antipt_text (participant : string) : string :=
  "🇵🇹 @" ++ split_first "@" participant
  ++ " foi removido por ser um número de Portugal (anti-PT ativado).".

(** Lines 146-156. *)
Definition antipt_rule (jsonGp : GroupConfig) : M unit :=
  if is_add && antipt jsonGp then
    let participant := p in
    let countryCode := substring0 3 (split_first "@" participant) in
    if String.eqb countryCode "351" then
      call_remove env from [participant];;
      call_send env from (MText (antipt_text participant) [participant])
    else ret tt
  else ret tt.

Definition blacklist_text (sender : string) (e : BlacklistEntry) : string :=
  "🚫 @" ++ split_first "@" sender
  ++ " foi removido do grupo por estar na lista negra. Motivo: " ++ show_opt (reason e).

(** The body of the blacklist branch once its condition holds (lines 159-168). *)
Definition blacklist_actions (e : BlacklistEntry) : M unit :=
  let sender := p in
  try_catch
    (call_remove env from [sender];;
     call_send env from (MText (blacklist_text sender e) [sender]))
    (fun msg => log_error ("❌ Erro ao remover usuário da lista negra no grupo "
                           ++ from ++ ": " ++ msg)).

(** Lines 158-170; [true] is the [return] that ends the handler.  The map
    values are objects, so [blacklist?.[p]] is truthy exactly for the keys. *)
Definition blacklist_rule (jsonGp : GroupConfig) : M bool :=
  if is_add then
    match blacklist jsonGp with
    | Some bl =>
        match assoc_get p bl with
        | Some e => blacklist_actions e;; ret true
        | None => ret false
        end
    | None => ret false
    end
  else ret false.

(** The placeholder substitution of lines 178-182 and 214-218. *)
Definition format_template (text sender : string) (gm : GroupMetadata) : string :=
  js_replaceAll
    (js_replaceAll
       (js_replaceAll
          (js_replaceAll text "#numerodele#" ("@" ++ split_first "@" sender))
          "#nomedogp#" (subject gm))
       "#desc#" (js_or_str (desc gm) ""))
    "#membros#" (js_number_to_string (length (participants gm))).

Definition default_avatar : string :=
  "https://raw.githubusercontent.com/nazuninha/uploads/main/outros/1747053564257_bzswae.bin".

Definition welcome_default (sender : string) (gm : GroupMetadata) : string :=
  "🎉 Bem-vindo(a), @" ++ split_first "@" sender ++ "! Você entrou no grupo *"
  ++ subject gm ++ "*. Leia as regras e aproveite! Membros: "
  ++ js_number_to_string (length (participants gm)) ++ ". Descrição: "
  ++ js_or_str (desc gm) "Nenhuma" ++ ".".

(** [s.length] of a JavaScript string, from its UTF-8 bytes: one UTF-16
    unit per character, two for a character outside the BMP (four-byte
    sequence); continuation bytes ([10xxxxxx]) add nothing. *)
Fixpoint js_length (s : string) : nat :=
  match s with
  | EmptyString => 0
  | String c r =>
      let n := nat_of_ascii c in
      (if Nat.leb 128 n && Nat.ltb n 192 then 0 else if Nat.leb 240 n then 2 else 1)
      + js_length r
  end.

(** [t && t.length > 1 ? t : default] *)
Definition pick_template (t : option string) (default : string) : string :=
  match t with
  | Some s => if Nat.ltb 1 (js_length s) then s else default
  | None => default
  end.

(** Lines 172-206. *)
Definition welcome_rule (gm : GroupMetadata) (jsonGp : GroupConfig) : M unit :=
  if is_add && bemvindo jsonGp then
    let sender := p in
    let welcomeText := pick_template (textbv jsonGp) (welcome_default sender gm) in
    let formattedText := format_template welcomeText sender gm in
    try_catch
      (let* message :=
         (if truthy_str (welcome_image jsonGp) then
            let img := show_opt (welcome_image jsonGp) in
            let* profilePic := try_catch (call_picture env sender)
                                         (fun _ => ret default_avatar) in
            let* image :=
              if negb (String.eqb img "banner") then ret (ImgUrl img)
              else match banner_err env profilePic with
                   | Some e => raise e
                   | None => ret (ImgBanner profilePic "Bem-vindo(a)!"
                                    "Aceita um cafézinho enquanto lê as regras?")
                   end in
            ret (MImage image formattedText [sender])
          else ret (MText formattedText [sender])) in
       call_send env from message)
      (fun msg => log_error ("❌ Erro ao enviar mensagem de boas-vindas no grupo "
                             ++ from ++ ": " ++ msg))
  else ret tt.

Definition exit_default (sender : string) (gm : GroupMetadata) : string :=
  "👋 @" ++ split_first "@" sender ++ " saiu do grupo *" ++ subject gm
  ++ "*. Até mais! Membros restantes: "
  ++ js_number_to_string (length (participants gm)) ++ ".".

(** Lines 208-231. *)
Definition exit_rule (gm : GroupMetadata) (jsonGp : GroupConfig) : M unit :=
  let is_remove := match ev_action inf with Remove => true | _ => false end in
  match exit jsonGp with
  | Some ex =>
      if is_remove && exit_enabled ex then
        let sender := p in
        let exitText := pick_template (exit_text ex) (exit_default sender gm) in
        let formattedText := format_template exitText sender gm in
        try_catch
          (let message := if truthy_str (exit_image ex)
                          then MImage (ImgUrl (show_opt (exit_image ex))) formattedText [sender]
                          else MText formattedText [sender] in
           call_send env from message)
          (fun msg => log_error ("❌ Erro ao enviar mensagem de saída no grupo "
                                 ++ from ++ ": " ++ msg))
      else ret tt
  | None => ret tt
  end.

(** The whole handler. *)
Definition on_group_participants_update : M unit :=
  if self_event then ret tt else
  let* meta := get_group_metadata in
  match meta with
  | None => ret tt
  | Some groupMetadata =>
      let* cfg := load_group_config in
      match cfg with
      | None => ret tt
      | Some jsonGp =>
          x9_rule jsonGp;;
          antifake_rule jsonGp;;
          antipt_rule jsonGp;;
          let* stop := blacklist_rule jsonGp in
          if stop then ret tt else
          welcome_rule groupMetadata jsonGp;;
          exit_rule groupMetadata jsonGp
      end
  end.

End Participants.

(* ================================================================= *)
(** ** Names in scope *)

Inductive Sock := PrimarySock | SecondarySock.

Definition sock_name (s : Sock) : string :=
  match s with PrimarySock => "primary" | SecondarySock => "secondary" end.

(** Values a socket-holding name can have: [null], or a socket whose
    [user] field is set once the session is open. *)
Inductive JsVal := JNull | JSock (s : Sock) (has_user : bool).

(** The socket-valued bindings visible at a program point. *)
Definition Scope := list (string * JsVal).

(** Reading an identifier: an undeclared one raises a [ReferenceError]
    (optional chaining [x?.f] does not guard an undeclared [x]). *)
Definition read_ref (scope : Scope) (x : string) : M JsVal :=
  match assoc_get x scope with
  | Some v => ret v
  | None => raise (x ++ " is not defined")
  end.

(** [v?.user] is truthy. *)
Definition has_user_val (v : JsVal) : bool :=
  match v with JSock _ u => u | JNull => false end.

Definition val_name (v : JsVal) : string :=
  match v with JSock s _ => sock_name s | JNull => "null" end.

(* ================================================================= *)
(** ** Message intake: the [messages.upsert] handler (lines 234-251) *)

Record InboundMessage := {
  key_id : string;
  remote_jid : option string;
  payload : option string       (* info.message *)
}.

Record Batch := {
  batch_messages : option (list InboundMessage);
  batch_type : string
}.

(** Bindings visible at line 241: the handler's own [NazunaSock] (line 66)
    and the module's [secondaryNazunaSock] (line 51). *)
Definition intake_scope (secondaryNazunaSock : JsVal) : Scope :=
  [("NazunaSock", JSock PrimarySock true); ("secondaryNazunaSock", secondaryNazunaSock)].

Section Intake.

Variable dualMode : bool.
Variable scope : Scope.
(** A rejection of the command router for a socket and a message. *)
Variable router_err : string -> InboundMessage -> option string.

(** [dualMode && useSecondary && secondarySocket?.user ? secondarySocket : NazunaSock] *)
Definition active_sock (useSecondary : bool) : M JsVal :=
  if dualMode && useSecondary then
    let* v := read_ref scope "secondarySocket" in
    if has_user_val v then read_ref scope "secondarySocket"
    else read_ref scope "NazunaSock"
  else read_ref scope "NazunaSock".

(** The [for] loop; the pair carries the final value of [useSecondary]. *)
Fixpoint intake_loop (msgs : list InboundMessage) (useSecondary : bool)
  : M unit * bool :=
  match msgs with
  | [] => (ret tt, useSecondary)
  | info :: rest =>
      if negb (match payload info with Some _ => true | None => false end)
         || negb (truthy_str (remote_jid info))
      then intake_loop rest useSecondary
      else
        match active_sock useSecondary with
        | (Throw e, t) => ((Throw e, (ACacheMessage (key_id info) :: t)%list), useSecondary)
        | (Ok v, t) =>
            let useSecondary' := negb useSecondary in
            let call := emit (ARouter (val_name v) (key_id info));;
                        match router_err (val_name v) info with
                        | Some e => raise e
                        | None => ret tt
                        end in
            match call with
            | (Throw e, t2) =>
                ((Throw e, (ACacheMessage (key_id info) :: t ++ t2)%list), useSecondary')
            | (Ok _, t2) =>
                let '(m', u) := intake_loop rest useSecondary' in
                (bind (Ok tt, (ACacheMessage (key_id info) :: t ++ t2)%list) (fun _ => m'), u)
            end
        end
  end.

(** The handler; [index_is_function] is [typeof indexModule === 'function'].
    Returns the trace and the new value of the module's [useSecondary]. *)
Definition on_messages_upsert (index_is_function : bool) (m : Batch)
  (useSecondary : bool) : list Act * bool :=
  match batch_messages m with
  | None => ([], useSecondary)
  | Some msgs =>
      if negb (String.eqb (batch_type m) "notify") then ([], useSecondary)
      else if index_is_function then
        let '(r, u) := intake_loop msgs useSecondary in
        (snd (try_catch r (fun e => log_error ("❌ Erro ao processar mensagem: " ++ e))), u)
      else ([ALog "⚠️ Módulo index.js inválido ou não encontrado."], useSecondary)
  end.

(** A run of batches threading [useSecondary]. *)
Fixpoint run_upserts (index_is_function : bool) (bs : list Batch) (useSecondary : bool)
  : list Act * bool :=
  match bs with
  | [] => ([], useSecondary)
  | b :: bs' =>
      let '(t1, u1) := on_messages_upsert index_is_function b useSecondary in
      let '(t2, u2) := run_upserts index_is_function bs' u1 in
      ((t1 ++ t2)%list, u2)
  end.

End Intake.

(* ================================================================= *)
(** ** Connection handlers and start-up (lines 253-356) *)

Definition AUTH_DIR_PRIMARY : string := "database/qr-code".
Definition AUTH_DIR_SECONDARY : string := "database/qr-code-secondary".

Inductive ConnState := Connecting | Open | Close.

(** A [connection.update]; [status_code] is
    [new Boom(lastDisconnect?.error)?.output?.statusCode]. *)
Record ConnUpdate := {
  connection : option ConnState;
  status_code : option nat
}.

Definition show_code (r : option nat) : string :=
  match r with Some n => js_number_to_string n | None => "undefined" end.

(** [[DisconnectReason.loggedOut, 401].includes(reason)] *)
Definition is_logout (loggedOut : nat) (reason : option nat) : bool :=
  match reason with
  | Some n => existsb (Nat.eqb n) [loggedOut; 401]
  | None => false
  end.

(** [await fs.rm(dir, { recursive: true, force: true })]: [force] only
    silences a missing path; [rm_err] is any other rejection (EACCES,
    EPERM, EBUSY, ...). *)
Definition call_rm (rm_err : option string) (dir : string) : M unit :=
  emit (ARmDir dir);;
  match rm_err with Some e => raise e | None => ret tt end.

Section Disconnect.

(** The [DisconnectReason] codes of the protocol library. *)
Variables loggedOut connectionClosed connectionLost connectionReplaced
          timedOut badSession restartRequired : nat.

(** The object literal of lines 262-271; a later duplicate key wins. *)
Definition reason_table : list (nat * string) :=
  [(loggedOut, "Deslogado do WhatsApp"); (401, "Sessão expirada");
   (connectionClosed, "Conexão fechada"); (connectionLost, "Conexão perdida");
   (connectionReplaced, "Conexão substituída"); (timedOut, "Tempo de conexão esgotado");
   (badSession, "Sessão inválida"); (restartRequired, "Reinício necessário")].

Fixpoint last_assoc (k : nat) (l : list (nat * string)) : option string :=
  match l with
  | [] => None
  | (k', v) :: l' =>
      match last_assoc k l' with
      | Some w => Some w
      | None => if Nat.eqb k k' then Some v else None
      end
  end.

Definition reason_message (reason : option nat) : string :=
  match reason with
  | Some n => match last_assoc n reason_table with Some s => s | None => "Motivo desconhecido" end
  | None => "Motivo desconhecido"
  end.

(** The primary session's [connection.update] handler (lines 253-286).
    [rm_err] is the rejection, if any, of the removal of the credential
    directory; the library's [end()] does not fail; [startNazu()] is
    started without being awaited. *)
Definition on_primary_connection_update (dualMode : bool) (nomebot prefixo nomedono : string)
  (rm_err : option string) (update : ConnUpdate) : M unit :=
  (match connection update with
   | Some Open =>
       log_info ("✅ Bot *" ++ nomebot ++ "* iniciado com sucesso! Prefixo: " ++ prefixo
                 ++ " | Dono: " ++ nomedono ++ " | Modo dual: "
                 ++ (if dualMode then "Ativado" else "Desativado"))
   | _ => ret tt
   end);;
  (match connection update with
   | Some Close =>
       let reason := status_code update in
       log_info ("❌ Conexão principal fechada. Código: " ++ show_code reason
                 ++ " | Motivo: " ++ reason_message reason);;
       (if is_logout loggedOut reason then call_rm rm_err AUTH_DIR_PRIMARY else ret tt);;
       emit AEnd;;
       log_info "🔄 Tentando reconectar o bot principal...";;
       emit AStartNazu
   | _ => ret tt
   end);;
  (match connection update with
   | Some Connecting => log_info "🔄 Atualizando sessão principal..."
   | _ => ret tt
   end).

(** The secondary session's [connection.update] handler (lines 288-316);
    [rm_err] as above; the reconnection runs 5 s later, inside its own
    try/catch. *)
Definition on_secondary_connection_update (rm_err : option string) (update : ConnUpdate)
  : M unit :=
  (match connection update with
   | Some Open => log_info "✅ Conexão secundária estabelecida com sucesso!"
   | _ => ret tt
   end);;
  (match connection update with
   | Some Close =>
       let reason := status_code update in
       log_info ("❌ Conexão secundária fechada. Código: " ++ show_code reason);;
       (if is_logout loggedOut reason then call_rm rm_err AUTH_DIR_SECONDARY else ret tt);;
       emit (ASchedule 5000 (ACreateSocket AUTH_DIR_SECONDARY false))
   | _ => ret tt
   end);;
  (match connection update with
   | Some Connecting => log_info "🔄 Conectando sessão secundária..."
   | _ => ret tt
   end).

End Disconnect.

(** Start-up (lines 322-356).  [create_err isPrimary] is a rejection of
    [createBotSocket]; [user_now s] tells whether [s.user] is set when the
    dual branch inspects it, [opens s] whether [s] later reaches [open]. *)
Section Start.

Variable dualMode : bool.
Variable create_err : bool -> option string.
Variable user_now : Sock -> bool.
Variable opens : Sock -> bool.

(** [createBotSocket] as seen by its callers: the call, then a rejection or
    the new socket.  The code-mode pairing prompt of lines 88-98 is
    [pairing_step] below and is not part of this view. *)
Definition create_bot_socket (authDir : string) (isPrimary : bool) (s : Sock) : M JsVal :=
  emit (ACreateSocket authDir isPrimary);;
  match create_err isPrimary with
  | Some e => raise e
  | None => ret (JSock s (user_now s))
  end.

(** [waitForConnection]: [true] when the promise resolves, [false] when it
    stays pending forever. *)
Definition wait_for_connection (v : JsVal) : M bool :=
  match v with
  | JSock s u => ret (u || opens s)
  | JNull => raise "Cannot read properties of null (reading 'user')"
  end.

(** Lines 330-350: the dual branch, with the bindings of [startNazu] in scope. *)
Definition dual_start (primaryNazunaSock : JsVal) : M unit :=
  try_catch
    (let* secondaryNazunaSock := create_bot_socket AUTH_DIR_SECONDARY false SecondarySock in
     let scope : Scope := [("primaryNazunaSock", primaryNazunaSock);
                           ("secondaryNazunaSock", secondaryNazunaSock)] in
     let* a := read_ref scope "primarySocket" in
     let* w1 := wait_for_connection a in
     let* b := read_ref scope "secondarySocket" in
     let* w2 := wait_for_connection b in
     if w1 && w2
     then log_info "✅ Modo dual pronto! Ambos os bots estão conectados."
     else ret tt)
    (fun e => log_error ("❌ Erro ao iniciar bot secundário: " ++ e);;
              log_info "⚠️ Continuando apenas com o bot principal.").

Definition start_nazu : M unit :=
  try_catch
    (log_info ("🚀 Iniciando Nazuna... Modo dual: " ++ (if dualMode then "Ativado" else "Desativado"));;
     let* primaryNazunaSock := create_bot_socket AUTH_DIR_PRIMARY true PrimarySock in
     if dualMode then
       log_info "🔗 Iniciando modo dual...";;
       dual_start primaryNazunaSock
     else ret tt)
    (fun e => log_error ("❌ Erro ao iniciar o bot: " ++ e);; emit (AExit 1)).

End Start.

(* ================================================================= *)
(** ** Event registration of [createBotSocket] (lines 85-86, 100-317) *)

Inductive EventName :=
| CredsUpdate | GroupsUpdate | GroupParticipantsUpdate | MessagesUpsert | ConnectionUpdate.

Inductive HandlerId :=
| StoreBinding            (* store.bind(ev): the shared in-memory store *)
| SaveCreds               (* saveCreds *)
| GroupsCacheHandler      (* lines 101-104 *)
| PolicyHandler           (* on_group_participants_update *)
| IntakeHandler           (* on_messages_upsert *)
| PrimaryConnHandler      (* on_primary_connection_update *)
| SecondaryConnHandler.   (* on_secondary_connection_update *)

(** Subscriptions in registration order; [None] is the store binding,
    which the library subscribes to the whole event stream. *)
Definition registrations (isPrimary : bool) : list (option EventName * HandlerId) :=
  [(None, StoreBinding); (Some CredsUpdate, SaveCreds)] ++
  (if isPrimary then
     [(Some GroupsUpdate, GroupsCacheHandler);
      (Some GroupParticipantsUpdate, PolicyHandler);
      (Some MessagesUpsert, IntakeHandler);
      (Some ConnectionUpdate, PrimaryConnHandler)]
   else [(Some ConnectionUpdate, SecondaryConnHandler)]).

Definition event_eqb (a b : EventName) : bool :=
  match a, b with
  | CredsUpdate, CredsUpdate | GroupsUpdate, GroupsUpdate
  | GroupParticipantsUpdate, GroupParticipantsUpdate
  | MessagesUpsert, MessagesUpsert | ConnectionUpdate, ConnectionUpdate => true
  | _, _ => false
  end.

(** The handlers an event of the stream is delivered to. *)
Definition dispatch (regs : list (option EventName * HandlerId)) (e : EventName)
  : list HandlerId :=
  map snd (filter (fun r => match fst r with None => true | Some e' => event_eqb e e' end) regs).

(* ================================================================= *)
(** ** Group-metadata cache: the [groups.update] handler (lines 101-104) *)

(** [groupCache.set(g, gm)]: the environment whose cache answers [gm] for
    [g] right after the write.  The cache's entries expire 300 s after they
    are written ([stdTTL], line 48), which this snapshot does not track. *)
Definition cache_set (env : Env) (g : string) (gm : GroupMetadata) : Env :=
  {| self_user_id := self_user_id env;
     cache_get := fun g' => if String.eqb g' g then Some gm else cache_get env g';
     fetch_meta := fetch_meta env;
     read_config := read_config env;
     remove_err := remove_err env;
     send_err := send_err env;
     picture := picture env;
     banner_err := banner_err env |}.

(** The handler destructures its array argument as [[ev]]: only the first
    group update is read, and an empty array makes [ev.id] throw.  The
    result carries the cache after the handler. *)
Definition on_groups_update (env : Env) (evs : list string) : M unit * Env :=
  match evs with
  | [] => (raise "Cannot read properties of undefined (reading 'id')", env)
  | g :: _ =>
      match fetch_meta env g with
      | Some meta => ((emit (AFetchMeta g);; emit (ACacheSet g)), cache_set env g meta)
      | None => (emit (AFetchMeta g), env)
      end
  end.

(* ================================================================= *)
(** ** Pairing-code login of [createBotSocket] (lines 88-98) *)

Definition is_digit (c : ascii) : bool :=
  Nat.leb 48 (nat_of_ascii c) && Nat.leb (nat_of_ascii c) 57.

(** [s.replace(/\D/g, '')] (and [/[^\d]/g]) on the UTF-8 bytes of [s]: the
    bytes of a non-ASCII character are all non-digits, so dropping the
    non-digit bytes drops exactly the non-digit characters. *)
Fixpoint strip_non_digits (s : string) : string :=
  match s with
  | EmptyString => EmptyString
  | String c r => if is_digit c then String c (strip_non_digits r) else strip_non_digits r
  end.

Fixpoint all_digits (s : string) : bool :=
  match s with
  | EmptyString => true
  | String c r => is_digit c && all_digits r
  end.

(** [/^\d{10,15}$/.test(s)] *)
Definition valid_phone (s : string) : bool :=
  all_digits s && Nat.leb 10 (String.length s) && Nat.leb (String.length s) 15.

Definition pairing_prompt : string :=
  "📱 Por favor, insira o número de telefone (com DDD, sem espaços ou caracteres especiais): ".

(** Lines 88-98.  [answer] is the line typed at the prompt; [ask] trims it,
    and the blanks [trim] removes are non-digits, removed again by the
    stripping.  [request_code] is the outcome of [requestPairingCode]; the
    result is the number a code was requested for.  [process.exit(1)] ends
    the process: nothing follows it. *)
Definition pairing_step (codeMode registered : bool) (answer : string)
  (request_code : string -> Outcome string) : M (option string) :=
  if codeMode && negb registered then
    log_info pairing_prompt;;
    let phoneNumber := strip_non_digits answer in
    if negb (valid_phone phoneNumber) then
      log_info "⚠️ Número inválido! Insira um número válido com 10 a 15 dígitos.";;
      emit (AExit 1);;
      ret None
    else
      match request_code phoneNumber with
      | Throw e => raise e
      | Ok code =>
          log_info ("🔑 Código de pareamento: " ++ code);;
          log_info "📲 Envie este código no WhatsApp para autenticar o bot.";;
          ret (Some phoneNumber)
      end
  else ret None.

(* ================================================================= *)
(** ** Resource loader (connect.js, lines 359-457) *)

(** The values the loader handles: [undefined], functions, objects (their
    own keys in insertion order) and the arrow functions [() => v]. *)
Set Warnings "-register-all".

Inductive JV :=
| JUndefined
| JFun (name : string)
| JObj (fields : list (string * JV))
| JThunk (v : JV).

(** [v?.[k]] *)
Definition get_field (v : JV) (k : string) : JV :=
  match v with
  | JObj fs => match assoc_get k fs with Some w => w | None => JUndefined end
  | _ => JUndefined
  end.

(** Truthiness: [undefined] is the only falsy value here. *)
Definition truthy_jv (v : JV) : bool := match v with JUndefined => false | _ => true end.

(** [o[k] = v] on an object literal: an existing key keeps its place. *)
Fixpoint obj_set (fs : list (string * JV)) (k : string) (v : JV) : list (string * JV) :=
  match fs with
  | [] => [(k, v)]
  | (k', w) :: r => if String.eqb k k' then (k', v) :: r else (k', w) :: obj_set r k v
  end.

(** A module namespace: its default export ([JUndefined] when absent) and
    its named exports. *)
Record ModuleNs := { ns_default : JV; ns_exports : list (string * JV) }.

(** [module.default || module] *)
Definition default_or_namespace (ns : ModuleNs) : JV :=
  if truthy_jv (ns_default ns) then ns_default ns else JObj (ns_exports ns).

(** [loadModuleAsync] (lines 372-381); [import_mod p] is the outcome of
    [import(path.join(__dirname, p))], [inl msg] a rejection. *)
Definition load_module_async (import_mod : string -> string + ModuleNs) (modulePath : string)
  : M JV :=
  match import_mod modulePath with
  | inl msg =>
      log_error ("[AVISO] Não foi possível carregar o módulo local: " ++ modulePath
                 ++ ". Erro: " ++ msg);;
      ret JUndefined
  | inr ns => ret (default_or_namespace ns)
  end.

(** [loadJson] (lines 388-397): [read_file] and [json_parse] answer with
    [inl msg] on a rejection or a syntax error. *)
Definition load_json (read_file : string -> string + string) (json_parse : string -> string + JV)
  (filePath : string) : M JV :=
  let fail msg := log_error ("[ERRO] Falha ao carregar o arquivo JSON: " ++ filePath
                             ++ ". Erro: " ++ msg);; ret JUndefined in
  match read_file filePath with
  | inl msg => fail msg
  | inr data => match json_parse data with inl msg => fail msg | inr v => ret v end
  end.

Definition local_module_paths : list (string * string) :=
  [("youtube", "downloads/youtube.js"); ("tiktok", "downloads/tiktok.js");
   ("pinterest", "downloads/pinterest.js"); ("igdl", "downloads/igdl.js");
   ("Lyrics", "downloads/lyrics.js"); ("mcPlugin", "downloads/mcplugins.js");
   ("FilmesDL", "downloads/filmes.js");
   ("styleText", "utils/gerarnick.js"); ("VerifyUpdate", "utils/update-verify.js");
   ("emojiMix", "utils/emojimix.js"); ("upload", "utils/upload.js");
   ("tictactoe", "utils/tictactoe.js"); ("stickerModule", "utils/sticker.js");
   ("commandStats", "utils/commandStats.js");
   ("ia", "private/ia.js"); ("banner", "private/banner.js")].

Fixpoint map_m {A B} (f : A -> M B) (l : list A) : M (list B) :=
  match l with
  | [] => ret []
  | x :: r => let* y := f x in let* ys := map_m f r in ret (y :: ys)
  end.

(** The default export (lines 424-457).  The loads run concurrently and
    [Promise.all] keeps the order of its array; the warnings are recorded
    in that order.  The result is the exported object's fields. *)
Definition load_resources (import_mod : string -> string + ModuleNs)
  (read_file : string -> string + string) (json_parse : string -> string + JV)
  : M (list (string * JV)) :=
  let* mods := map_m (fun kp => let* m := load_module_async import_mod (snd kp) in
                                ret (fst kp, m)) local_module_paths in
  let* tools := load_json read_file json_parse "json/tools.json" in
  let* vab := load_json read_file json_parse "json/vab.json" in
  let loadedResources := (mods ++ [("toolsJson", tools); ("vabJson", vab)])%list in
  let stickerModule := get_field (JObj loadedResources) "stickerModule" in
  ret (obj_set (obj_set (obj_set (obj_set loadedResources
         "sendSticker" (get_field stickerModule "sendSticker"))
         "stickerModule" JUndefined)
         "toolsJson" (JThunk (get_field (JObj loadedResources) "toolsJson")))
         "vabJson" (JThunk (get_field (JObj loadedResources) "vabJson"))).
(* ================================================================= *)
(** ** YouTube downloads (funcs/downloads/youtube.js), loaded as [youtube] *)

(** [s.toLowerCase()] on the ASCII letters; the phrases looked for below
    are ASCII. *)
Definition lower_ascii (c : ascii) : ascii :=
  if Nat.leb 65 (nat_of_ascii c) && Nat.leb (nat_of_ascii c) 90
  then ascii_of_nat (nat_of_ascii c + 32) else c.

Fixpoint to_lower (s : string) : string :=
  match s with
  | EmptyString => EmptyString
  | String c r => String (lower_ascii c) (to_lower r)
  end.

(** [s.includes(t)] *)
Fixpoint includes (s t : string) : bool :=
  match s with
  | EmptyString => String.eqb t ""
  | String _ r => String.prefix t s || includes r t
  end.

(** [error.response?.data]: none, an object (its [JSON.stringify] text and
    its [message] field, [None] when not a string), or a string body. *)
Inductive RespData :=
| RDNone
| RDObject (json : string) (message : option string)
| RDString (body : string).

(** An error caught by the functions: [error.message] ([""] when missing),
    [error.response?.status] and [error.response?.data]. *)
Record AxiosError := {
  err_message : string;
  resp_status : option nat;
  resp_data : RespData
}.

(** [new Error(msg)] *)
Definition plain_error (msg : string) : AxiosError :=
  {| err_message := msg; resp_status := None; resp_data := RDNone |}.

Definition key_error_messages : list string :=
  ["api key"; "unauthorized"; "invalid token"; "authentication failed"; "access denied";
   "quota exceeded"; "rate limit"; "forbidden"; "token expired"; "invalid credentials"].

(** [isApiKeyError] (lines 11-49). *)
Definition is_api_key_error (error : option AxiosError) : bool :=
  match error with
  | None => false
  | Some e =>
      let errorMessage := to_lower (err_message e) in
      let authErrorCodes := [401; 403; 429] in
      if match resp_status e with
         | Some s => existsb (Nat.eqb s) authErrorCodes
         | None => false
         end then true
      else if existsb (includes errorMessage) key_error_messages then true
      else match resp_data e with
           | RDObject json _ => existsb (includes (to_lower json)) key_error_messages
           | _ => false
           end
  end.

(** [error.response?.data?.message || error.message] *)
Definition err_detail (e : AxiosError) : string :=
  match resp_data e with
  | RDObject _ m => js_or_str m (err_message e)
  | _ => err_message e
  end.

(** The common [catch] of [search], [mp3] and [mp4]: after the log line,
    a key error is rethrown, any other becomes [{ ok: false, msg }]. *)
Definition yt_catch {R} (log_line fail_prefix : string) (fail : string -> R)
  (error : AxiosError) : M R :=
  log_error log_line;;
  if is_api_key_error (Some error)
  then raise ("API key inválida ou expirada: " ++ err_detail error)
  else ret (fail (fail_prefix ++ err_detail error)).

(** [response.data] of the search endpoint: [success] (truthiness) and
    [data.data] when [data] is truthy. *)
Record SearchBody := { sb_success : bool; sb_data : option string }.

Inductive SearchResult := SearchOk (data : string) | SearchFail (msg : string).

(** [search] (lines 81-119); [post query apiKey] is the outcome of the
    [axios.post] to the search endpoint. *)
Definition yt_search (query : string) (apiKey : option string)
  (post : string -> string -> AxiosError + SearchBody) : M SearchResult :=
  let body : AxiosError + string :=
    if negb (truthy_str apiKey) then inl (plain_error "API key não fornecida")
    else match post query (show_opt apiKey) with
         | inl e => inl e
         | inr d =>
             match sb_success d, sb_data d with
             | true, Some x => inr x
             | _, _ => inl (plain_error "Resposta inválida da API")
             end
         end in
  match body with
  | inr x => ret (SearchOk x)
  | inl error =>
      yt_catch ("Erro na busca YouTube: " ++ err_message error) "Erro ao buscar vídeo: "
        SearchFail error
  end.

Record Download := { dl_buffer : string; dl_filename : string; dl_quality : string }.

Inductive DownloadResult := DownloadOk (d : Download) | DownloadFail (msg : string).

(** [mp3] (lines 122-161) and [mp4] (lines 164-203) differ in the endpoint,
    the [quality] field sent, the default quality, the file name, the
    quality label and the messages.  [post url q apiKey] is the outcome of
    the [axios.post] (the [arraybuffer] body as bytes); [now] is
    [Date.now()]; a [quality] of [None] is [undefined]. *)
Definition yt_download (sent_quality default_quality file_prefix unit_label ext
  log_line fail_prefix : string)
  (url : string) (quality : option string) (apiKey : option string) (now : nat)
  (post : string -> string -> string -> AxiosError + string) : M DownloadResult :=
  let q := match quality with Some s => s | None => default_quality end in
  let body : AxiosError + string :=
    if negb (truthy_str apiKey) then inl (plain_error "API key não fornecida")
    else post url sent_quality (show_opt apiKey) in
  match body with
  | inr raw =>
      ret (DownloadOk {| dl_buffer := raw;
                         dl_filename := file_prefix ++ js_number_to_string now ++ "_" ++ q
                                        ++ unit_label ++ ext;
                         dl_quality := q ++ unit_label |})
  | inl error =>
      yt_catch (log_line ++ err_message error) fail_prefix DownloadFail error
  end.

(** [console.error('Erro no download MP3:', error)] prints the error itself;
    its message stands for it here. *)
Definition yt_mp3 := yt_download "mp3" "128" "audio_" "kbps" ".mp3"
  "Erro no download MP3: " "Erro ao baixar áudio: ".

Definition yt_mp4 := yt_download "360p" "360" "video_" "p" ".mp4"
  "Erro no download MP4: " "Erro ao baixar vídeo: ".

(** [ownerNumber?.replace(/[^\d]/g, '') + '@s.whatsapp.net'] *)
Definition owner_id (ownerNumber : option string) : string :=
  match ownerNumber with Some n => strip_non_digits n | None => "undefined" end
  ++ "@s.whatsapp.net".

(** The alert of lines 54-69; [err] is [error || 'Chave inválida ou
    expirada'] and [date] is [new Date().toLocaleString('pt-BR')]. *)
Definition api_key_alert (command : string) (err : option string) (date : string) : string :=
  "🚨 *ALERTA - API KEY INVÁLIDA* 🚨

⚠️ A API key do YouTube (Cognima) está com problemas:

*Comando:* " ++ command ++ "
*Erro:* " ++ js_or_str err "Chave inválida ou expirada" ++ "
*Data:* " ++ date ++ "

🔧 *Ações necessárias:*
• Verificar se a API key não expirou
• Confirmar se ainda há créditos na conta
• Verificar se a key está correta no config.json

💡 *Você pode entrar em contato para solicitar uma key gratuita com limite de 50 requests por dia ou comprar a ilimitada por R$15/mês!*

📞 *Contato:* wa.me/553399285117".

(** [notifyOwnerAboutApiKey] (lines 52-78); [send_text_err] is the
    rejection, if any, of [nazu.sendText], recorded as a text message. *)
Definition notify_owner_about_api_key (send_text_err : string -> string -> option string)
  (ownerNumber : option string) (err : option string) (command date : string) : M unit :=
  try_catch
    (let message := api_key_alert command err date in
     let ownerId := owner_id ownerNumber in
     emit (ASend ownerId (MText message []));;
     match send_text_err ownerId message with
     | Some e => raise e
     | None => log_info "📧 Notificação sobre API key enviada ao dono"
     end)
    (fun e => log_error ("❌ Erro ao notificar dono sobre API key: " ++ e)).

(* ================================================================= *)
(** ** Sticker module (src/unnamed/part_000), loaded as [stickerModule] *)

(** Buffers are byte strings. [buf[i]], or 256 (no byte) past the end. *)
Definition byte_at (i : nat) (b : string) : nat :=
  match String.get i b with Some c => nat_of_ascii c | None => 256 end.

(** [buf.slice(0, 4).toString() === "RIFF" && buf.slice(8, 12).toString() === "WEBP"]:
    a decoded slice equals an ASCII word exactly when its bytes do. *)
Definition is_riff_webp (b : string) : bool :=
  String.eqb (substring 0 4 b) "RIFF" && String.eqb (substring 8 4 b) "WEBP".

(** [detectImageExtension] (lines 33-40). *)
Definition detect_image_extension (buf : string) : string :=
  if Nat.leb 12 (String.length buf) then
    if Nat.eqb (byte_at 0 buf) 137 && Nat.eqb (byte_at 1 buf) 80
       && Nat.eqb (byte_at 2 buf) 78 && Nat.eqb (byte_at 3 buf) 71 then "png"
    else if Nat.eqb (byte_at 0 buf) 255 && Nat.eqb (byte_at 1 buf) 216 then "jpg"
    else if is_riff_webp buf then "webp"
    else "jpg"
  else "jpg".

(** The [cmdOptions] of lines 67-76. *)
Definition webp_options (isVideo forceSquare : bool) : list string :=
  let vfBase := if forceSquare then "scale=320:320"
                else "scale=320:320:force_original_aspect_ratio=decrease,pad=320:320:(ow-iw)/2:(oh-ih)/2:color=0x00000000" in
  let filters := if isVideo then vfBase ++ ",fps=15" else vfBase in
  (["-vf"; filters; "-c:v"; "libwebp"; "-lossless"; "0"; "-compression_level"; "6";
    "-preset"; "default"]
   ++ (if isVideo then ["-q:v"; "45"; "-loop"; "0"; "-an"; "-vsync"; "0"; "-t"; "8"]
       else ["-q:v"; "75"]))%list.

(** [convertToWebp] (lines 43-113).  [tmp_name ext] is the name
    [generateTempFileName(ext)] returns; [tmp_err] is the rejection, if
    any, of the steps that prepare the input file (the [mkdirSync] of
    [ensureTmpDir] in either [generateTempFileName], the [fs.writeFile] and
    the [fs.stat] of the input); [ffmpeg input options] is the outcome of
    the conversion (the bytes of the output file, [""] when it is missing
    or empty); [read_out_err] is a rejection of the [fs.readFile] of the
    output.  The removals of the temporary files (whose rejections are
    caught) and ffmpeg's START, END and progress lines are not recorded. *)
Definition convert_to_webp (tmp_name : string -> string) (tmp_err : option string)
  (ffmpeg : string -> list string -> Outcome string) (read_out_err : option string)
  (mediaBuffer : string) (isVideo forceSquare : bool) : M string :=
  if negb isVideo && is_riff_webp mediaBuffer then
    log_info "Entrada já é WebP estático. Pulando conversão.";;
    ret mediaBuffer
  else
    let inExt := if isVideo then "mp4" else detect_image_extension mediaBuffer in
    let tmpIn := tmp_name (if isVideo then "mp4" else inExt) in
    match tmp_err with Some e => raise e | None =>
    if Nat.eqb (String.length mediaBuffer) 0 then raise "Arquivo temporário de entrada vazio" else
    log_info ("[convert] Iniciando (" ++ (if isVideo then "vídeo" else "imagem")
              ++ ") -> WebP. Input=" ++ tmpIn ++ " ("
              ++ js_number_to_string (String.length mediaBuffer) ++ " bytes)");;
    match ffmpeg mediaBuffer (webp_options isVideo forceSquare) with
    | Throw e => log_error ("[ffmpeg] ERROR: " ++ e);; raise e
    | Ok out =>
        if Nat.eqb (String.length out) 0 then raise "Conversão falhou: saída vazia" else
        match read_out_err with Some e => raise e | None =>
        log_info ("[convert] WebP gerado (" ++ js_number_to_string (String.length out)
                  ++ " bytes).");;
        ret out
        end
    end
    end.

(** [writeExif] (lines 114-142); [webpmux buf packname author] is the
    outcome of loading [buf], setting the EXIF block and saving. *)
Definition write_exif (webpmux : string -> string -> string -> Outcome string)
  (webpBuffer packname author : string) : M string :=
  match webpmux webpBuffer packname author with
  | Ok out => ret out
  | Throw e => log_error ("[exif] Falha ao inserir EXIF: " ++ e);; ret webpBuffer
  end.

(** The inputs [sendSticker] accepts: a [Buffer], a string, an object with
    its [url] field, or anything else. *)
Inductive StickerInput :=
| SBuffer (b : string)
| SString (s : string)
| SObject (url : option string)
| SOther.

(** [/^https?:\/\//i.test(s)] *)
Definition http_url (s : string) : bool :=
  String.prefix "http://" (to_lower s) || String.prefix "https://" (to_lower s).

(** A JavaScript line terminator at the start of [s] (LF, CR, and the
    UTF-8 bytes of U+2028 and U+2029): [.] does not match it. *)
Definition starts_with_line_terminator (s : string) : bool :=
  String.prefix (String (ascii_of_nat 10) "") s || String.prefix (String (ascii_of_nat 13) "") s
  || String.prefix (String (ascii_of_nat 226) (String (ascii_of_nat 128)
                      (String (ascii_of_nat 168) ""))) s
  || String.prefix (String (ascii_of_nat 226) (String (ascii_of_nat 128)
                      (String (ascii_of_nat 169) ""))) s.

(** [.*?;base64,] (case-insensitive) matching from the start of [s]. *)
Fixpoint lazy_until_base64 (s : string) : bool :=
  String.prefix ";base64," (to_lower s) ||
  match s with
  | EmptyString => false
  | String _ r => negb (starts_with_line_terminator s) && lazy_until_base64 r
  end.

(** [/^data:.*?;base64,/i.test(s)] *)
Definition data_url (s : string) : bool :=
  String.prefix "data:" (to_lower s) && lazy_until_base64 (substring 5 (String.length s) s).

(** [s.split(",")[1]] when [s] has a comma. *)
Fixpoint after_first_comma (s : string) : string :=
  match s with
  | EmptyString => EmptyString
  | String c r => if Ascii.eqb c "," then split_first "," r else after_first_comma r
  end.

(** [getBuffer] (lines 26-30); [http_get url] is the outcome of the GET,
    its body as bytes. *)
Definition get_buffer (http_get : string -> Outcome string) (url : string) : M string :=
  match http_get url with
  | Throw e => raise e
  | Ok data => if Nat.eqb (String.length data) 0 then raise "Download vazio" else ret data
  end.

(** [resolveInputToBuffer] (lines 145-160); [base64_decode] is
    [Buffer.from(s, "base64")] and [read_file] the outcome of [fs.readFile]. *)
Definition resolve_input_to_buffer (base64_decode : string -> string)
  (http_get : string -> Outcome string) (read_file : string -> Outcome string)
  (input : StickerInput) : M string :=
  match input with
  | SBuffer b => ret b
  | SString s =>
      if data_url s then ret (base64_decode (after_first_comma s))
      else if http_url s then get_buffer http_get s
      else match read_file s with Ok b => ret b | Throw e => raise e end
  | SObject (Some u) =>
      if String.eqb u "" then raise "Entrada de sticker inválida" else get_buffer http_get u
  | _ => raise "Entrada de sticker inválida"
  end.

Definition dq : string := String (ascii_of_nat 34) "".

(** The external answers [sendSticker] depends on. *)
Record StickerEnv := {
  st_base64_decode : string -> string;
  st_http_get : string -> Outcome string;
  st_read_file : string -> Outcome string;
  st_tmp_name : string -> string;
  st_tmp_err : option string;
  st_ffmpeg : string -> list string -> Outcome string;
  st_read_out_err : option string;
  st_webpmux : string -> string -> string -> Outcome string;
  st_send_err : string -> string -> option string   (* nazu.sendMessage(jid, { sticker }) *)
}.

(** [sendSticker] (lines 165-192); the result is the buffer sent. *)
Definition send_sticker (se : StickerEnv) (jid : string) (input : StickerInput)
  (type_ packname author : string) (forceSquare : bool) : M string :=
  if negb (existsb (String.eqb type_) ["image"; "video"]) then
    raise ("Tipo deve ser " ++ dq ++ "image" ++ dq ++ " ou " ++ dq ++ "video" ++ dq)
  else
    let* buffer := resolve_input_to_buffer (st_base64_decode se) (st_http_get se)
                     (st_read_file se) input in
    if Nat.ltb (String.length buffer) 10 then raise "Buffer inválido/vazio" else
    log_info ("[sticker] Recebido type=" ++ type_ ++ " size="
              ++ js_number_to_string (String.length buffer) ++ " bytes");;
    let* webpBuffer := convert_to_webp (st_tmp_name se) (st_tmp_err se) (st_ffmpeg se)
                         (st_read_out_err se) buffer
                         (String.eqb type_ "video") forceSquare in
    let* webpBuffer :=
      if negb (String.eqb packname "") || negb (String.eqb author "")
      then write_exif (st_webpmux se) webpBuffer packname author
      else ret webpBuffer in
    match st_send_err se jid webpBuffer with
    | Some e => raise e
    | None => log_info "[sticker] Enviado com sucesso";; ret webpBuffer
    end.

(* ================================================================= *)
(** * Properties *)

(** Calls that reach the group: removals and messages. *)
Definition outbound (a : Act) : bool :=
  match a with ARemove _ _ | ASend _ _ => true | _ => false end.

(** [m] run after the calls [t]. *)
Definition with_prefix {A} (t : list Act) (m : M A) : M A := (fst m, (t ++ snd m)%list).

(** Calls of the policy engine and the message intake. *)
Definition policy_or_router (a : Act) : bool :=
  match a with
  | ARouter _ _ | ARemove _ _ | ASend _ _ | AReadConfig _ | AFetchMeta _ => true
  | _ => false
  end.

(** The calls of the blacklist branch once it is taken: the removal, then
    (when it succeeds) the templated reason; a rejection is logged. *)
Definition blacklist_trace (env : Env) (inf : MembershipEvent) (e : BlacklistEntry)
  : list Act :=
  let from := ev_id inf in
  let p := ev_first inf in
  let msg := MText (blacklist_text p e) [p] in
  let log m := ALog ("❌ Erro ao remover usuário da lista negra no grupo " ++ from ++ ": " ++ m) in
  ARemove from [p] ::
  match remove_err env from [p] with
  | Some m => [log m]
  | None => ASend from msg :: match send_err env from msg with Some m => [log m] | None => [] end
  end.

(** A message the intake loop hands to the router: it has a payload and a
    non-empty [remoteJid]. *)
Definition qualifies (info : InboundMessage) : bool :=
  match payload info with Some _ => true | None => false end && truthy_str (remote_jid info).

(** The calls made for one message by a single-session intake whose router
    accepts it. *)
Definition single_trace (info : InboundMessage) : list Act :=
  if qualifies info then [ACacheMessage (key_id info); ARouter "primary" (key_id info)] else [].

(** An outbound call allowed for a membership event: removals of the first
    participant of an [add] from the event's group, messages to the group. *)
Definition outbound_ok (inf : MembershipEvent) (a : Act) : Prop :=
  match a with
  | ARemove g ps => g = ev_id inf /\ ps = [ev_first inf] /\ ev_action inf = Add
  | ASend g _ => g = ev_id inf
  | _ => True
  end.

Definition is_removal (a : Act) : bool := match a with ARemove _ _ => true | _ => false end.

Definition count_removals (t : list Act) : nat := length (filter is_removal t).

(** The value [loadModuleAsync] resolves to for an import outcome. *)
Definition module_value (r : string + ModuleNs) : JV :=
  match r with inl _ => JUndefined | inr ns => default_or_namespace ns end.

(** The value [loadJson] resolves to. *)
Definition json_value (read_file : string -> string + string)
  (json_parse : string -> string + JV) (filePath : string) : JV :=
  match read_file filePath with
  | inl _ => JUndefined
  | inr d => match json_parse d with inl _ => JUndefined | inr v => v end
  end.

(** The export [key] of [fs] is [() => loadJson(path)]'s value: [undefined]
    when the file cannot be read or parsed, the parsed value otherwise. *)
Definition json_export (read_file : string -> string + string)
  (json_parse : string -> string + JV) (fs : list (string * JV)) (key path : string) : Prop :=
  (forall m, read_file path = inl m -> get_field (JObj fs) key = JThunk JUndefined) /\
  (forall d m, read_file path = inr d -> json_parse d = inl m ->
     get_field (JObj fs) key = JThunk JUndefined) /\
  (forall d v, read_file path = inr d -> json_parse d = inr v ->
     get_field (JObj fs) key = JThunk v).

(** [o[k]] on the exported object. *)
Definition obj_get (fs : list (string * JV)) (k : string) : JV := get_field (JObj fs) k.

(** ** Sample inputs *)

Definition sticker_env_sample (mux : string -> string -> string -> Outcome string)
  (send_err : string -> string -> option string) : StickerEnv :=
  {| st_base64_decode := fun s => s;
     st_http_get := fun u => if String.eqb u "https://x.test/empty" then Ok "" else Ok ("IMG:" ++ u);
     st_read_file := fun _ => Throw "ENOENT";
     st_tmp_name := fun e => "/tmp/1_1." ++ e;
     st_tmp_err := None;
     st_ffmpeg := fun b _ => Ok ("RIFF0000WEBP" ++ b);
     st_read_out_err := None;
     st_webpmux := mux;
     st_send_err := send_err |}.

Definition webp_sample : string := "RIFF0000WEBPVP8 data".


Definition sample_group : string := "120363025000000000@g.us".

Definition sample_meta : GroupMetadata :=
  {| subject := "Grupo"; desc := Some "Regras"; participants := ["a"; "b"; "c"] |}.

Definition empty_config : GroupConfig :=
  {| x9 := false; antifake := false; antipt := false; blacklist := None;
     bemvindo := false; textbv := None; welcome_image := None; exit := None |}.

(** A connected session [5511987654321:12]; [cached] tells whether the
    group's metadata is in the cache, [fetch_ok] whether a fetch succeeds,
    [rm] is the rejection (if any) of every removal. *)
Definition sample_env (cfg : option GroupConfig) (cached fetch_ok : bool)
  (rm : option string) : Env :=
  {| self_user_id := "5511987654321:12@s.whatsapp.net";
     cache_get := fun _ => if cached then Some sample_meta else None;
     fetch_meta := fun _ => if fetch_ok then Some sample_meta else None;
     read_config := fun _ => cfg;
     remove_err := fun _ _ => rm;
     send_err := fun _ _ => None;
     picture := fun _ => None;
     banner_err := fun _ => None |}.

Definition sample_event (a : GroupAction) (who : string) : MembershipEvent :=
  {| ev_id := sample_group; ev_action := a; ev_first := who; ev_rest := [];
     ev_author := None |}.

(** A session whose own number, [12025550123], is outside the anti-fake
    allow-list. *)
Definition foreign_bot_env (cfg : option GroupConfig) : Env :=
  {| self_user_id := "12025550123:7@s.whatsapp.net";
     cache_get := fun _ => Some sample_meta;
     fetch_meta := fun _ => Some sample_meta;
     read_config := fun _ => cfg;
     remove_err := fun _ _ => None;
     send_err := fun _ _ => None;
     picture := fun _ => None;
     banner_err := fun _ => None |}.

Definition antifake_config : GroupConfig :=
  {| x9 := false; antifake := true; antipt := false; blacklist := None;
     bemvindo := true; textbv := None; welcome_image := None; exit := None |}.

(** The calls of the anti-fake rule when it fires: the removal, then the
    notification when the removal succeeded. *)
Definition antifake_trace (env : Env) (inf : MembershipEvent) : list Act :=
  ARemove (ev_id inf) [ev_first inf] ::
  match remove_err env (ev_id inf) [ev_first inf] with
  | Some _ => []
  | None => [ASend (ev_id inf) (MText (antifake_text (ev_first inf)) [ev_first inf])]
  end.

(** An inbound chat message and a live batch holding it. *)
Definition chat_message (id : string) : InboundMessage :=
  {| key_id := id; remote_jid := Some "5511911112222@s.whatsapp.net"; payload := Some "oi" |}.

Definition notify_batch (msgs : list InboundMessage) : Batch :=
  {| batch_messages := Some msgs; batch_type := "notify" |}.

Lemma prefix_split_first (c : ascii) (s : string) :
  String.prefix (split_first c s) s = true.
Proof.
  induction s as [| a s IH]; simpl; [reflexivity |].
  destruct (Ascii.eqb a c); simpl; [reflexivity |].
  destruct (ascii_dec a a) as [_ | n]; [exact IH | contradiction].
Qed.

Lemma bind_ret_l {A B} (a : A) (f : A -> M B) : bind (ret a) f = f a.
Proof. unfold bind, ret; simpl. destruct (f a); reflexivity. Qed.

Lemma bind_emit (a : Act) {B} (f : unit -> M B) :
  bind (emit a) f = (fst (f tt), a :: snd (f tt)).
Proof. unfold bind, emit; simpl. destruct (f tt); reflexivity. Qed.

(** ** C5 *)

(** C5: when the first participant's bare identifier (the text before [@])
    equals the session identity ([user.id] up to [:]), the membership handler
    issues no call at all: no metadata fetch, no configuration read, no
    removal and no message. *)
Theorem self_participant_no_action (env : Env) (inf : MembershipEvent)
  (Hself : split_first "@" (ev_first inf) = split_first ":" (self_user_id env)) :
  on_group_participants_update env inf = (Ok tt, []).
Proof.
  unfold on_group_participants_update, self_event, starts_with.
  rewrite <- Hself, prefix_split_first. reflexivity.
Qed.

(** Witness of [self_participant_no_action]: the session's own number joins. *)
Lemma self_participant_no_action_witness :
  split_first "@" "5511987654321@s.whatsapp.net"
    = split_first ":" (self_user_id (sample_env (Some empty_config) true true None)) /\
  on_group_participants_update (sample_env (Some empty_config) true true None)
    (sample_event Add "5511987654321@s.whatsapp.net") = (Ok tt, []).
Proof.
  split; [vm_compute; reflexivity |].
  apply self_participant_no_action. vm_compute. reflexivity.
Defined.

(** ** C9 *)

(** C9: when the group's configuration cannot be read (missing file or
    unparseable JSON), the handler ends normally and its only calls are the
    metadata lookup ([groupMetadata] and the cache write) and the read
    itself: no rule runs, no removal and no message is issued. *)
Theorem missing_config_ignored (env : Env) (inf : MembershipEvent)
  (Hcfg : read_config env (ev_id inf) = None) :
  fst (on_group_participants_update env inf) = Ok tt /\
  Forall (fun a => a = AFetchMeta (ev_id inf) \/ a = ACacheSet (ev_id inf)
                   \/ a = AReadConfig (ev_id inf))
         (snd (on_group_participants_update env inf)) /\
  forallb (fun a => negb (outbound a)) (snd (on_group_participants_update env inf)) = true.
Proof.
  unfold on_group_participants_update, get_group_metadata, load_group_config.
  destruct (self_event env inf); [simpl; auto |].
  destruct (cache_get env (ev_id inf)) as [gm |];
    [| destruct (fetch_meta env (ev_id inf)) as [gm |]];
    cbn -[x9_rule antifake_rule antipt_rule blacklist_rule welcome_rule exit_rule];
    rewrite ?Hcfg; cbn;
    (split; [reflexivity | split; [| reflexivity]]);
    repeat (apply Forall_cons; [tauto |]); apply Forall_nil.
Qed.

Lemma missing_config_ignored_witness :
  read_config (sample_env None false true None) sample_group = None /\
  fst (on_group_participants_update (sample_env None false true None)
         (sample_event Add "447700900123@s.whatsapp.net")) = Ok tt.
Proof.
  split; [vm_compute; reflexivity |].
  apply (missing_config_ignored (sample_env None false true None)
           (sample_event Add "447700900123@s.whatsapp.net")).
  vm_compute. reflexivity.
Defined.

(** ** C6 *)

Lemma is_logout_spec (loggedOut : nat) (reason : option nat) :
  is_logout loggedOut reason = true <-> reason = Some loggedOut \/ reason = Some 401.
Proof.
  destruct reason as [n |]; simpl.
  - destruct (Nat.eqb_spec n loggedOut) as [-> | Hne]; simpl.
    + tauto.
    + destruct (Nat.eqb_spec n 401) as [-> | Hne']; simpl.
      * tauto.
      * split; [discriminate | intros [H | H]; injection H; intro; contradiction].
  - split; [discriminate | intros [H | H]; discriminate].
Qed.

(** C6 (as stated, refuted): with the protocol library's codes, a close
    for reason 401 whose credential directory cannot be removed (a
    permission error: [force] only silences a missing path) makes the
    handler reject right after the removal: [end()] and [startNazu()] are
    never called, so no reconnect is attempted. *)
Lemma primary_close_rm_failure :
  let r := on_primary_connection_update 401 428 408 440 408 500 515 false "Nazuna" "!" "Dono"
             (Some "EACCES: permission denied, rmdir 'database/qr-code'")
             {| connection := Some Close; status_code := Some 401 |} in
  r = (Throw "EACCES: permission denied, rmdir 'database/qr-code'",
       [AInfo "❌ Conexão principal fechada. Código: 401 | Motivo: Sessão expirada";
        ARmDir AUTH_DIR_PRIMARY]) /\
  ~ In AStartNazu (snd r) /\ ~ In AEnd (snd r).
Proof.
  cbn zeta. vm_compute. split; [reflexivity |].
  split; intros H; repeat (destruct H as [H | H]; [discriminate |]); exact H.
Qed.

(** C6 (amended): on a close of the primary session, the removal of the
    primary credential directory is requested exactly when the reason is
    [DisconnectReason.loggedOut] or 401.  When no removal is needed or the
    removal succeeds, the handler ends normally and its last calls are
    [end()], the reconnect notice and [startNazu()], the removal (if any)
    coming before them.  When the removal rejects, the handler rejects with
    that error and calls neither [end()] nor [startNazu()]. *)
Theorem primary_close_reconnects
  (loggedOut connectionClosed connectionLost connectionReplaced timedOut badSession
   restartRequired : nat) (dualMode : bool) (nomebot prefixo nomedono : string)
  (rm_err : option string) (reason : option nat) :
  let r := on_primary_connection_update loggedOut connectionClosed connectionLost
             connectionReplaced timedOut badSession restartRequired dualMode
             nomebot prefixo nomedono rm_err {| connection := Some Close; status_code := reason |} in
  (In (ARmDir AUTH_DIR_PRIMARY) (snd r) <-> reason = Some loggedOut \/ reason = Some 401) /\
  (((reason = Some loggedOut \/ reason = Some 401) -> rm_err = None) ->
   fst r = Ok tt /\
   exists pre,
     snd r = (pre ++ [AEnd; AInfo "🔄 Tentando reconectar o bot principal..."; AStartNazu])%list /\
     (In (ARmDir AUTH_DIR_PRIMARY) pre <-> reason = Some loggedOut \/ reason = Some 401)) /\
  (forall e, (reason = Some loggedOut \/ reason = Some 401) -> rm_err = Some e ->
   fst r = Throw e /\ ~ In AEnd (snd r) /\ ~ In AStartNazu (snd r)).
Proof.
  cbn zeta. pose proof (is_logout_spec loggedOut reason) as Hspec.
  unfold on_primary_connection_update, call_rm;
    cbn -[is_logout reason_message show_code append].
  destruct (is_logout loggedOut reason) eqn:Hl.
  - assert (Hlog : reason = Some loggedOut \/ reason = Some 401) by (apply Hspec; reflexivity).
    destruct rm_err as [m |]; cbn -[append].
    + split; [split; [intros _; exact Hlog | intros _; right; left; reflexivity] |].
      split; [intros H; specialize (H Hlog); discriminate |].
      intros e _ He. injection He as <-.
      split; [reflexivity |].
      split; intros H; repeat (destruct H as [H | H]; [discriminate |]); exact H.
    + split; [split; [intros _; exact Hlog | intros _; right; left; reflexivity] |].
      split; [intros _ | intros e _ He; discriminate].
      split; [reflexivity |].
      match goal with |- context [AInfo (append "❌ Conexão principal fechada. Código: " ?L)] =>
        exists [AInfo (append "❌ Conexão principal fechada. Código: " L); ARmDir AUTH_DIR_PRIMARY]
      end.
      split; [reflexivity |]. split; [intros _; exact Hlog | intros _; right; left; reflexivity].
  - assert (Hnl : ~ (reason = Some loggedOut \/ reason = Some 401))
      by (rewrite <- Hspec; discriminate).
    cbn -[append].
    split.
    { split; [intros H; repeat (destruct H as [H | H]; [discriminate |]); destruct H
              | intros H; contradiction]. }
    split; [intros _ | intros e H; contradiction].
    split; [reflexivity |].
    match goal with |- context [AInfo (append "❌ Conexão principal fechada. Código: " ?L)] =>
      exists [AInfo (append "❌ Conexão principal fechada. Código: " L)]
    end.
    split; [reflexivity |].
    split; [intros [H | []]; discriminate | intros H; contradiction].
Qed.

(** ** C10 *)

(** C10 (as stated, refuted): the secondary session does not register a
    connection-state handler only; it also subscribes [saveCreds] to
    credential updates (line 86), as every session does. *)
Lemma secondary_not_only_connection_handler :
  ~ (forall r, In r (registrations false) -> fst r = Some ConnectionUpdate).
Proof.
  intro H.
  specialize (H (Some CredsUpdate, SaveCreds) (or_intror (or_introl eq_refl))).
  discriminate H.
Qed.

(** C10 (amended): the group-metadata, membership-change and message-batch
    handlers are registered on the primary session only; an event of the
    secondary session's stream reaches only the shared store binding, the
    credential saver and the secondary connection handler, and the latter
    issues no policy call and never invokes the command router. *)
Theorem secondary_stream_inert (e : EventName) (loggedOut : nat) (rm_err : option string)
  (u : ConnUpdate) :
  (forall h, In h (dispatch (registrations false) e) ->
             h = StoreBinding \/ h = SaveCreds \/ h = SecondaryConnHandler) /\
  forallb (fun a => negb (policy_or_router a))
          (snd (on_secondary_connection_update loggedOut rm_err u)) = true /\
  In GroupsCacheHandler (dispatch (registrations true) GroupsUpdate) /\
  In PolicyHandler (dispatch (registrations true) GroupParticipantsUpdate) /\
  In IntakeHandler (dispatch (registrations true) MessagesUpsert).
Proof.
  split; [| split; [| cbn; tauto]].
  - destruct e; cbn; intros h H; intuition.
  - unfold on_secondary_connection_update.
    unfold call_rm.
    destruct u as [[[] |] reason]; cbn -[is_logout show_code];
      try destruct (is_logout loggedOut reason); try destruct rm_err; reflexivity.
Qed.

(** ** Monad laws and the handler's prologue *)

Lemma bind_assoc {A B C} (m : M A) (f : A -> M B) (g : B -> M C) :
  bind (bind m f) g = bind m (fun x => bind (f x) g).
Proof.
  destruct m as [[a | e] t]; cbn; [| reflexivity].
  destruct (f a) as [[b | e'] t2]; cbn; [| reflexivity].
  destruct (g b) as [r t3]; cbn. rewrite app_assoc. reflexivity.
Qed.

Lemma bind_ret_unit (m : M unit) : bind m (fun _ => ret tt) = m.
Proof. destruct m as [[[] | e] t]; cbn; [rewrite app_nil_r |]; reflexivity. Qed.

Lemma bind_ok {A B} (a : A) (t : list Act) (f : A -> M B) :
  bind (Ok a, t) f = with_prefix t (f a).
Proof. unfold bind, with_prefix. destruct (f a); reflexivity. Qed.

Lemma with_prefix_app {A} (t1 t2 : list Act) (m : M A) :
  with_prefix t1 (with_prefix t2 m) = with_prefix (t1 ++ t2) m.
Proof. unfold with_prefix; cbn. rewrite app_assoc. reflexivity. Qed.

Lemma load_config_some (env : Env) (inf : MembershipEvent) (c : GroupConfig) :
  read_config env (ev_id inf) = Some c ->
  load_group_config env inf = (Ok (Some c), [AReadConfig (ev_id inf)]).
Proof. intro H. unfold load_group_config. rewrite bind_emit, H. reflexivity. Qed.

Lemma x9_rule_add (env : Env) (inf : MembershipEvent) (c : GroupConfig) :
  ev_action inf = Add -> x9_rule env inf c = ret tt.
Proof. intro H. unfold x9_rule. rewrite H. reflexivity. Qed.

(** Up to the rules: a non-self event with metadata and a configuration. *)
Lemma handler_prologue (env : Env) (inf : MembershipEvent) (gm : GroupMetadata)
  (c : GroupConfig)
  (Hself : self_event env inf = false)
  (Hmeta : fst (get_group_metadata env inf) = Ok (Some gm))
  (Hcfg : read_config env (ev_id inf) = Some c) :
  on_group_participants_update env inf =
  with_prefix (snd (get_group_metadata env inf) ++ [AReadConfig (ev_id inf)])
    (x9_rule env inf c;;
     antifake_rule env inf c;;
     antipt_rule env inf c;;
     let* stop := blacklist_rule env inf c in
     if stop then ret tt else
     welcome_rule env inf gm c;;
     exit_rule env inf gm c).
Proof.
  unfold on_group_participants_update. rewrite Hself.
  destruct (get_group_metadata env inf) as [o t]; cbn in Hmeta; subst o.
  rewrite bind_ok, (load_config_some env inf c Hcfg), bind_ok, with_prefix_app.
  reflexivity.
Qed.

Lemma handler_self (env : Env) (inf : MembershipEvent) :
  self_event env inf = true -> on_group_participants_update env inf = (Ok tt, []).
Proof. intro H. unfold on_group_participants_update. rewrite H. reflexivity. Qed.

(** Metadata neither cached nor fetchable: the handler stops after the lookup. *)
Lemma handler_no_meta (env : Env) (inf : MembershipEvent)
  (Hself : self_event env inf = false)
  (Hmeta : fst (get_group_metadata env inf) = Ok None) :
  on_group_participants_update env inf = (Ok tt, snd (get_group_metadata env inf)).
Proof.
  unfold on_group_participants_update. rewrite Hself.
  destruct (get_group_metadata env inf) as [o t]; cbn in Hmeta; subst o.
  cbn. rewrite app_nil_r. reflexivity.
Qed.

Lemma lookup_not_outbound (env : Env) (inf : MembershipEvent) :
  forallb (fun a => negb (outbound a)) (snd (get_group_metadata env inf)) = true.
Proof.
  unfold get_group_metadata.
  destruct (cache_get env (ev_id inf)); [reflexivity |].
  destruct (fetch_meta env (ev_id inf)); reflexivity.
Qed.

Lemma exit_rule_add (env : Env) (inf : MembershipEvent) (gm : GroupMetadata) (c : GroupConfig) :
  ev_action inf = Add -> exit_rule env inf gm c = ret tt.
Proof.
  intro H. unfold exit_rule. rewrite H. destruct (exit c); reflexivity.
Qed.

(** ** C1 *)

(** C1 (as stated, refuted): a blacklisted participant joins a group whose
    metadata is neither cached nor fetchable; the handler stops before any
    rule, and the participant is not removed. *)
Lemma blacklisted_join_without_metadata :
  let cfg := {| x9 := false; antifake := false; antipt := false;
                blacklist := Some [("5511999999999@s.whatsapp.net", {| reason := Some "spam" |})];
                bemvindo := true; textbv := None; welcome_image := None; exit := None |} in
  let env := sample_env (Some cfg) false false None in
  let inf := sample_event Add "5511999999999@s.whatsapp.net" in
  self_event env inf = false /\
  read_config env sample_group = Some cfg /\
  assoc_get "5511999999999@s.whatsapp.net"
    [("5511999999999@s.whatsapp.net", {| reason := Some "spam" |})] <> None /\
  on_group_participants_update env inf = (Ok tt, [AFetchMeta sample_group]) /\
  ~ In (ARemove sample_group ["5511999999999@s.whatsapp.net"])
       (snd (on_group_participants_update env inf)).
Proof.
  vm_compute. split; [reflexivity |]. split; [reflexivity |].
  split; [discriminate |]. split; [reflexivity |].
  intros [H | []]. discriminate H.
Qed.


Lemma blacklist_actions_run (env : Env) (inf : MembershipEvent) (e : BlacklistEntry) :
  blacklist_actions env inf e = (Ok tt, blacklist_trace env inf e).
Proof.
  unfold blacklist_actions, blacklist_trace, call_remove, call_send, try_catch, log_error.
  destruct (remove_err env (ev_id inf) [ev_first inf]) as [m |]; [reflexivity |].
  cbn -[append].
  destruct (send_err env (ev_id inf) (MText (blacklist_text (ev_first inf) e) [ev_first inf]));
    reflexivity.
Qed.

(** C1 (amended): for an [add] event that passes the self-filter:
    when the group metadata is unavailable (not cached, fetch rejected) the
    handler returns after the lookup, before any rule; when it is available
    and the configuration is readable, the handler runs the anti-fake
    rule, then the anti-PT rule, then the blacklist rule, then — unless the
    blacklist rule stopped — the welcome rule (the x9 and exit rules do
    nothing for an [add]).  When the participant is a key of the blacklist
    map, the blacklist branch removes the participant, then sends the
    templated reason (failures logged), and stops: the welcome rule does
    not run. *)
Theorem blacklisted_join_stops (env : Env) (inf : MembershipEvent)
  (Hadd : ev_action inf = Add)
  (Hself : self_event env inf = false) :
  (fst (get_group_metadata env inf) = Ok None ->
   on_group_participants_update env inf = (Ok tt, snd (get_group_metadata env inf))) /\
  (forall (gm : GroupMetadata) (jsonGp : GroupConfig),
   fst (get_group_metadata env inf) = Ok (Some gm) ->
   read_config env (ev_id inf) = Some jsonGp ->
   on_group_participants_update env inf =
   with_prefix (snd (get_group_metadata env inf) ++ [AReadConfig (ev_id inf)])
     (antifake_rule env inf jsonGp;;
      antipt_rule env inf jsonGp;;
      let* stop := blacklist_rule env inf jsonGp in
      if stop then ret tt else welcome_rule env inf gm jsonGp) /\
   (forall (bl : list (string * BlacklistEntry)) (e : BlacklistEntry),
    blacklist jsonGp = Some bl -> assoc_get (ev_first inf) bl = Some e ->
    on_group_participants_update env inf =
    with_prefix (snd (get_group_metadata env inf) ++ [AReadConfig (ev_id inf)])
      (antifake_rule env inf jsonGp;;
       antipt_rule env inf jsonGp;;
       (Ok tt, blacklist_trace env inf e)))).
Proof.
  split; [exact (handler_no_meta env inf Hself) |].
  intros gm jsonGp Hmeta Hcfg.
  rewrite (handler_prologue env inf gm jsonGp Hself Hmeta Hcfg).
  rewrite (x9_rule_add env inf jsonGp Hadd), bind_ret_l.
  rewrite (exit_rule_add env inf gm jsonGp Hadd), bind_ret_unit.
  split; [reflexivity |].
  intros bl e Hbl Hkey.
  assert (Hrule : blacklist_rule env inf jsonGp
                  = bind (blacklist_actions env inf e) (fun _ => ret true)).
  { unfold blacklist_rule, is_add. rewrite Hadd, Hbl, Hkey. reflexivity. }
  rewrite Hrule, bind_assoc, bind_ret_l, bind_ret_unit, blacklist_actions_run.
  reflexivity.
Qed.

Lemma blacklisted_join_stops_witness :
  let cfg := {| x9 := false; antifake := true; antipt := false;
                blacklist := Some [("5511999999999@s.whatsapp.net", {| reason := Some "spam" |})];
                bemvindo := true; textbv := None; welcome_image := None; exit := None |} in
  let env := sample_env (Some cfg) true false None in
  let inf := sample_event Add "5511999999999@s.whatsapp.net" in
  on_group_participants_update env inf =
  with_prefix (snd (get_group_metadata env inf) ++ [AReadConfig (ev_id inf)])
    (antifake_rule env inf cfg;; antipt_rule env inf cfg;; (Ok tt, blacklist_trace env inf
       {| reason := Some "spam" |})).
Proof.
  intros cfg env inf.
  apply (proj2 (proj2 (blacklisted_join_stops env inf eq_refl ltac:(vm_compute; reflexivity))
                  sample_meta cfg ltac:(vm_compute; reflexivity) ltac:(vm_compute; reflexivity))
           [("5511999999999@s.whatsapp.net", {| reason := Some "spam" |})]);
    vm_compute; reflexivity.
Defined.

(** ** C7 *)

(** C7 (as stated, refuted): an [add] of a number outside [55]/[35] into an
    anti-fake group is not always followed by one removal and one notice:
    (1) when the joining number is the session's own, nothing is issued;
    (2) when the group metadata is unavailable, nothing is issued;
    (3) when the removal is rejected, no notice is sent. *)
Lemma antifake_not_always_once :
  on_group_participants_update (foreign_bot_env (Some antifake_config))
    (sample_event Add "12025550123@s.whatsapp.net") = (Ok tt, []) /\
  on_group_participants_update (sample_env (Some antifake_config) false false None)
    (sample_event Add "12025550123@s.whatsapp.net")
    = (Ok tt, [AFetchMeta sample_group]) /\
  on_group_participants_update (sample_env (Some antifake_config) true true (Some "not-authorized"))
    (sample_event Add "12025550123@s.whatsapp.net")
    = (Throw "not-authorized",
       [AReadConfig sample_group; ARemove sample_group ["12025550123@s.whatsapp.net"]]).
Proof. vm_compute. split; [reflexivity | split; reflexivity]. Qed.

(** C7 (amended): for an [add] event, when the session's own number
    joins the handler makes no call at all, and when the group metadata is
    unavailable it only looks the metadata up: no removal and no message.
    When the event passes the self-filter, the metadata is available and
    the configuration has [antifake] on, and the number does not start
    with [55] or [35], the first outbound call of the handler is the
    anti-fake rule's single removal of the participant, followed, when
    that removal succeeds, by exactly one anti-fake notice. *)
Theorem antifake_removes_once (env : Env) (inf : MembershipEvent)
  (Hadd : ev_action inf = Add) :
  (self_event env inf = true -> on_group_participants_update env inf = (Ok tt, [])) /\
  (self_event env inf = false -> fst (get_group_metadata env inf) = Ok None ->
   on_group_participants_update env inf = (Ok tt, snd (get_group_metadata env inf))) /\
  forallb (fun a => negb (outbound a)) (snd (get_group_metadata env inf)) = true /\
  (forall (gm : GroupMetadata) (jsonGp : GroupConfig),
   self_event env inf = false ->
   fst (get_group_metadata env inf) = Ok (Some gm) ->
   read_config env (ev_id inf) = Some jsonGp ->
   antifake jsonGp = true ->
   existsb (String.eqb (substring0 2 (split_first "@" (ev_first inf)))) ["55"; "35"] = false ->
   exists rest,
     snd (on_group_participants_update env inf) =
     (snd (get_group_metadata env inf) ++ [AReadConfig (ev_id inf)] ++ antifake_trace env inf
      ++ rest)%list).
Proof.
  split; [exact (handler_self env inf) |].
  split; [exact (handler_no_meta env inf) |].
  split; [exact (lookup_not_outbound env inf) |].
  intros gm jsonGp Hself Hmeta Hcfg Haf Hcc.
  rewrite (handler_prologue env inf gm jsonGp Hself Hmeta Hcfg).
  rewrite (x9_rule_add env inf jsonGp Hadd), bind_ret_l.
  unfold antifake_rule, is_add. rewrite Hadd, Haf. cbn [andb]. rewrite Hcc. cbn [negb].
  unfold call_remove, antifake_trace.
  rewrite bind_emit, bind_assoc.
  destruct (remove_err env (ev_id inf) [ev_first inf]) as [m |].
  - exists []. unfold with_prefix. cbn. rewrite <- app_assoc. reflexivity.
  - cbn [fst snd ret]. rewrite bind_ok. unfold call_send.
    rewrite bind_assoc, bind_emit. unfold with_prefix. cbn [fst snd].
    eexists. rewrite <- !app_assoc. cbn [app]. reflexivity.
Qed.

Lemma antifake_removes_once_witness :
  exists rest,
    snd (on_group_participants_update (sample_env (Some antifake_config) true true None)
           (sample_event Add "12025550123@s.whatsapp.net")) =
    (snd (get_group_metadata (sample_env (Some antifake_config) true true None)
            (sample_event Add "12025550123@s.whatsapp.net"))
     ++ [AReadConfig sample_group]
     ++ antifake_trace (sample_env (Some antifake_config) true true None)
          (sample_event Add "12025550123@s.whatsapp.net") ++ rest)%list.
Proof.
  apply (proj2 (proj2 (proj2 (antifake_removes_once (sample_env (Some antifake_config) true true None)
           (sample_event Add "12025550123@s.whatsapp.net") eq_refl)))
           sample_meta antifake_config);
    vm_compute; reflexivity.
Defined.

(** ** C2 *)

(** C2 (code defect): the x9, anti-fake and anti-PT branches call the
    library without the try/catch the blacklist, welcome and exit branches
    have.  A rejected anti-fake removal escapes the handler unlogged and the
    welcome rule of the same event is never evaluated; a rejected x9
    announcement escapes in the same way. *)
Lemma unguarded_rule_failure_escapes :
  on_group_participants_update
    (sample_env (Some antifake_config) true true (Some "not-authorized"))
    (sample_event Add "12025550123@s.whatsapp.net")
  = (Throw "not-authorized",
     [AReadConfig sample_group; ARemove sample_group ["12025550123@s.whatsapp.net"]]) /\
  on_group_participants_update
    {| self_user_id := "5511987654321:12@s.whatsapp.net";
       cache_get := fun _ => Some sample_meta; fetch_meta := fun _ => None;
       read_config := fun _ => Some {| x9 := true; antifake := false; antipt := false;
                                       blacklist := None; bemvindo := false; textbv := None;
                                       welcome_image := None; exit := None |};
       remove_err := fun _ _ => None; send_err := fun _ _ => Some "timed out";
       picture := fun _ => None; banner_err := fun _ => None |}
    (sample_event Promote "5511911112222@s.whatsapp.net")
  = (Throw "timed out",
     [AReadConfig sample_group;
      ASend sample_group
        (MText "🚨 Atenção! @5511911112222 foi promovido a administrador por @alguém."
           ["5511911112222@s.whatsapp.net"; "alguém"])]).
Proof. vm_compute. split; reflexivity. Qed.

(** ** C3 *)

(** C3 (code defect): line 241 reads [secondarySocket], a name declared
    nowhere (the module's variable is [secondaryNazunaSock]).  In dual mode,
    with the secondary session open, the first message goes through the
    primary and flips [useSecondary] to [true]; from then on every message
    raises a [ReferenceError] before the flip, the rest of its batch is
    dropped, and the command router is never invoked again. *)
Lemma dual_intake_reference_error :
  run_upserts true (intake_scope (JSock SecondarySock true)) (fun _ _ => None) true
    [notify_batch [chat_message "A"]; notify_batch [chat_message "B"];
     notify_batch [chat_message "C"; chat_message "D"]] false
  = ([ACacheMessage "A"; ARouter "primary" "A";
      ACacheMessage "B"; ALog "❌ Erro ao processar mensagem: secondarySocket is not defined";
      ACacheMessage "C"; ALog "❌ Erro ao processar mensagem: secondarySocket is not defined"],
     true).
Proof. vm_compute. reflexivity. Qed.

(** ** C4 *)

(** C4 (code defect): the dual branch of [startNazu] waits on
    [primarySocket] and [secondarySocket], names declared nowhere (the
    sockets are [primaryNazunaSock] and [secondaryNazunaSock]).  Whatever
    the sessions do, reading [primarySocket] raises a [ReferenceError] that
    the branch's catch reports as a secondary start failure: the dual-mode
    ready message is never logged. *)
Theorem dual_ready_never_logged (user_now opens : Sock -> bool) :
  start_nazu true (fun _ => None) user_now opens =
  (Ok tt,
   [AInfo "🚀 Iniciando Nazuna... Modo dual: Ativado";
    ACreateSocket AUTH_DIR_PRIMARY true;
    AInfo "🔗 Iniciando modo dual...";
    ACreateSocket AUTH_DIR_SECONDARY false;
    ALog "❌ Erro ao iniciar bot secundário: primarySocket is not defined";
    AInfo "⚠️ Continuando apenas com o bot principal."]).
Proof. vm_compute. reflexivity. Qed.

(** ** C8 *)

(** C8 (code defect): the placeholders are substituted with
    [replaceAll] and a string replacement, so [$$], [$&], [$`] and [$'] in
    the group subject or description are expanded instead of copied: the
    subject [Ofertas $$] is written [Ofertas $], and [Grupo $&] writes the
    token [#nomedogp#] back.  Every occurrence of a token is replaced
    ([#membros#] twice gives the count twice). *)
Lemma template_dollar_patterns :
  format_template "Bem-vindo ao #nomedogp#! Somos #membros#, sim #membros#."
    "5511911112222@s.whatsapp.net"
    {| subject := "Ofertas $$"; desc := None; participants := ["a"; "b"; "c"] |}
  = "Bem-vindo ao Ofertas $! Somos 3, sim 3." /\
  format_template "#nomedogp# | #desc#" "5511911112222@s.whatsapp.net"
    {| subject := "Grupo $&"; desc := Some "Pix $'"; participants := ["a"; "b"; "c"] |}
  = "Grupo #nomedogp# | Pix ".
Proof. vm_compute. split; reflexivity. Qed.

(* ================================================================= *)
(** * Further properties of the code *)

(** ** Group-metadata cache *)

(** The [groups.update] handler never rejects on a non-empty batch: it
    fetches the metadata of the first group only and caches it when the
    fetch succeeds; the cache entries of every other group, those of the
    rest of the batch included, are left as they were.  An empty batch
    makes the handler reject. *)
Theorem groups_update_refreshes_first (env : Env) (g : string) (rest : list string) :
  let r := on_groups_update env (g :: rest) in
  fst (fst r) = Ok tt /\
  (forall h, cache_get (snd r) h =
     if String.eqb h g
     then match fetch_meta env g with Some gm => Some gm | None => cache_get env h end
     else cache_get env h) /\
  fst (fst (on_groups_update env [])) = Throw "Cannot read properties of undefined (reading 'id')".
Proof.
  cbn zeta. unfold on_groups_update.
  destruct (fetch_meta env g) as [gm |]; cbn; (split; [reflexivity | split; [| reflexivity]]);
    intro h; destruct (String.eqb h g); reflexivity.
Qed.

(** ** Pairing-code login *)

Lemma all_digits_strip (s : string) : all_digits (strip_non_digits s) = true.
Proof.
  induction s as [| c s IH]; [reflexivity |]. cbn.
  destruct (is_digit c) eqn:H; cbn; [rewrite H |]; assumption.
Qed.

(** With [--code] on an unregistered session, the typed answer is reduced
    to its digits; the process exits with code 1 exactly when that leaves
    fewer than 10 or more than 15 digits, and otherwise a pairing code is
    requested for those digits (and only for them). *)
Theorem pairing_requires_10_to_15_digits (answer : string)
  (request_code : string -> Outcome string) :
  let r := pairing_step true false answer request_code in
  (In (AExit 1) (snd r) <-> ~ (10 <= String.length (strip_non_digits answer) <= 15)) /\
  (forall n, fst r = Ok (Some n) ->
     n = strip_non_digits answer /\ all_digits n = true /\ 10 <= String.length n <= 15) /\
  (forall code, 10 <= String.length (strip_non_digits answer) <= 15 ->
     request_code (strip_non_digits answer) = Ok code ->
     fst r = Ok (Some (strip_non_digits answer))).
Proof.
  cbn zeta. unfold pairing_step. cbn [andb negb].
  assert (Hv : valid_phone (strip_non_digits answer)
               = Nat.leb 10 (String.length (strip_non_digits answer))
                 && Nat.leb (String.length (strip_non_digits answer)) 15)
    by (unfold valid_phone; rewrite all_digits_strip; reflexivity).
  rewrite Hv. pose proof (all_digits_strip answer) as Hd.
  set (n := strip_non_digits answer) in *.
  destruct (Nat.leb_spec 10 (String.length n)) as [H1 | H1],
           (Nat.leb_spec (String.length n) 15) as [H2 | H2]; cbn -[append].
  1: { destruct (request_code n) as [code | e]; cbn -[append].
    - split; [split; [intros [H | [H | [H | []]]]; discriminate | lia] |].
      split; [intros m Hm; injection Hm as <-; auto | intros; reflexivity].
    - split; [split; [intros [H | []]; discriminate | lia] |].
      split; [intros m Hm; discriminate | intros code _ Hc; discriminate]. }
  all: split; [split; [intros _; lia | intros _; right; right; left; reflexivity] |];
       split; [intros m Hm; discriminate | intros code Hl; lia].
Qed.


(** ** Message intake in single-session mode *)

Lemma with_prefix_nil {A} (m : M A) : with_prefix [] m = m.
Proof. destruct m; reflexivity. Qed.

Lemma intake_loop_single (sec : JsVal) (re : string -> InboundMessage -> option string)
  (pre rest : list InboundMessage) (u : bool)
  (Hok : forall x, In x pre -> qualifies x = true -> re "primary" x = None) :
  fst (intake_loop false (intake_scope sec) re (pre ++ rest) u) =
    with_prefix (flat_map single_trace pre)
      (fst (intake_loop false (intake_scope sec) re rest
              (xorb u (Nat.odd (length (filter qualifies pre)))))) /\
  snd (intake_loop false (intake_scope sec) re (pre ++ rest) u) =
    snd (intake_loop false (intake_scope sec) re rest
           (xorb u (Nat.odd (length (filter qualifies pre))))).
Proof.
  revert u. induction pre as [| x pre IH]; intro u.
  - cbn. rewrite xorb_false_r, with_prefix_nil. split; reflexivity.
  - assert (Hok' : forall y, In y pre -> qualifies y = true -> re "primary" y = None)
      by (intros y Hy; apply Hok; right; exact Hy).
    cbn [app intake_loop flat_map filter].
    unfold single_trace at 1.
    destruct (qualifies x) eqn:Hq.
    + assert (Hx : re "primary" x = None) by (apply Hok; [left |]; auto).
      unfold qualifies in Hq. apply andb_prop in Hq as [Hp Hr].
      destruct (payload x); [| discriminate]. rewrite Hr. cbn [negb orb].
      cbn. rewrite Hx. cbn.
      destruct (intake_loop false (intake_scope sec) re (pre ++ rest) (negb u)) as [m' u'] eqn:He.
      destruct (IH Hok' (negb u)) as [IH1 IH2]. rewrite He in IH1, IH2. cbn in IH1, IH2.
      rewrite Nat.odd_succ, <- Nat.negb_odd.
      replace (xorb u (negb (Nat.odd (length (filter qualifies pre)))))
        with (xorb (negb u) (Nat.odd (length (filter qualifies pre))))
        by (destruct u, (Nat.odd (length (filter qualifies pre))); reflexivity).
      cbn. rewrite <- IH2. split; [| reflexivity].
      rewrite IH1. unfold with_prefix. reflexivity.
    + assert (Hskip : negb (match payload x with Some _ => true | None => false end)
                      || negb (truthy_str (remote_jid x)) = true).
      { unfold qualifies in Hq. destruct (match payload x with Some _ => true | None => false end),
          (truthy_str (remote_jid x)); cbn in *; congruence. }
      rewrite Hskip. cbn [app]. exact (IH Hok' u).
Qed.



(** Without [--dual], when the router rejects a message, the rejection is
    logged once and the rest of the batch is dropped: the messages after it
    are neither cached nor routed. *)
Theorem single_mode_router_failure_drops_rest (sec : JsVal)
  (re : string -> InboundMessage -> option string) (pre post : list InboundMessage)
  (info : InboundMessage) (e : string) (u : bool)
  (Hok : forall x, In x pre -> qualifies x = true -> re "primary" x = None)
  (Hq : qualifies info = true) (Herr : re "primary" info = Some e) :
  fst (on_messages_upsert false (intake_scope sec) re true (notify_batch (pre ++ info :: post)) u) =
  (flat_map single_trace pre ++
   [ACacheMessage (key_id info); ARouter "primary" (key_id info);
    ALog ("❌ Erro ao processar mensagem: " ++ e)])%list.
Proof.
  unfold on_messages_upsert. cbn [batch_messages notify_batch batch_type].
  replace (String.eqb "notify" "notify") with true by reflexivity. cbn [negb].
  destruct (intake_loop_single sec re pre (info :: post) u Hok) as [H1 _].
  destruct (intake_loop false (intake_scope sec) re (pre ++ info :: post) u) as [r u'] eqn:He.
  cbn in H1. subst r.
  unfold qualifies in Hq. apply andb_prop in Hq as [Hp Hr].
  cbn [intake_loop]. destruct (payload info); [| discriminate]. rewrite Hr. cbn [negb orb].
  cbn. rewrite Herr. cbn. rewrite <- app_assoc. reflexivity.
Qed.

Lemma single_mode_router_failure_drops_rest_witness :
  fst (on_messages_upsert false (intake_scope JNull)
         (fun _ m => if String.eqb (key_id m) "B" then Some "boom" else None) true
         (notify_batch ([chat_message "A"] ++ chat_message "B" :: [chat_message "C"])) false) =
  (flat_map single_trace [chat_message "A"] ++
   [ACacheMessage "B"; ARouter "primary" "B"; ALog ("❌ Erro ao processar mensagem: " ++ "boom")])%list.
Proof.
  apply (single_mode_router_failure_drops_rest JNull
           (fun _ m => if String.eqb (key_id m) "B" then Some "boom" else None)
           [chat_message "A"] [chat_message "C"] (chat_message "B") "boom" false).
  - intros x [<- | []] _. reflexivity.
  - reflexivity.
  - reflexivity.
Defined.

(** ** Membership handler *)

Lemma Forall_bind {A B} (P : Act -> Prop) (m : M A) (f : A -> M B) :
  Forall P (snd m) -> (forall a, Forall P (snd (f a))) -> Forall P (snd (bind m f)).
Proof.
  intros Hm Hf. destruct m as [[a | e] t]; cbn; [| exact Hm].
  specialize (Hf a). destruct (f a) as [r t2]; cbn in *. apply Forall_app; auto.
Qed.

Lemma Forall_try_catch {A} (P : Act -> Prop) (m : M A) (h : string -> M A) :
  Forall P (snd m) -> (forall e, Forall P (snd (h e))) -> Forall P (snd (try_catch m h)).
Proof.
  intros Hm Hh. destruct m as [[a | e] t]; cbn; [exact Hm |].
  specialize (Hh e). destruct (h e) as [r t2]; cbn in *. apply Forall_app; auto.
Qed.

Ltac forall_steps :=
  repeat match goal with
  | |- Forall _ (snd (bind _ _)) => apply Forall_bind
  | |- Forall _ (snd (try_catch _ _)) => apply Forall_try_catch
  | |- forall _, _ => intro
  | |- Forall _ (snd (ret _)) => apply Forall_nil
  | |- Forall _ (snd (raise _)) => apply Forall_nil
  | |- Forall _ (snd (emit _)) => apply Forall_cons; [cbn; auto | apply Forall_nil]
  | |- Forall _ (snd (log_error _)) => apply Forall_cons; [cbn; auto | apply Forall_nil]
  | |- Forall _ (snd (if ?b then _ else _)) => destruct b
  | |- Forall _ (snd (match ?x with _ => _ end)) => destruct x
  end.

(** Whatever the configuration and the answers of the network, every
    removal the membership handler issues removes exactly the event's first
    participant from the event's group, and only for an [add] event; every
    message it sends goes to the event's group.  The other participants of
    the event are never acted upon. *)
Theorem handler_outbound_scope (env : Env) (inf : MembershipEvent) :
  Forall (outbound_ok inf) (snd (on_group_participants_update env inf)).
Proof.
  unfold on_group_participants_update, get_group_metadata, load_group_config,
    x9_rule, antifake_rule, antipt_rule, blacklist_rule, blacklist_actions,
    welcome_rule, exit_rule, call_remove, call_send, call_picture, is_add.
  destruct (ev_action inf) eqn:Hact; cbn [andb];
    forall_steps; cbn; auto.
Qed.

Lemma substring_351 (s : string) : substring0 3 s = "351" -> substring0 2 s = "35".
Proof.
  destruct s as [| a [| b [| c s]]]; cbn; intro H; try discriminate.
  injection H as -> ->. reflexivity.
Qed.

(** The anti-fake and anti-PT rules never both remove the participant: a
    number starting with [351] starts with the allowed [35]. *)
Theorem country_rules_remove_at_most_once (env : Env) (inf : MembershipEvent)
  (jsonGp : GroupConfig) :
  count_removals (snd (antifake_rule env inf jsonGp;; antipt_rule env inf jsonGp)) <= 1.
Proof.
  unfold antifake_rule, antipt_rule.
  set (p := split_first "@" (ev_first inf)).
  assert (Hex : String.eqb (substring0 3 p) "351" = true ->
                existsb (String.eqb (substring0 2 p)) ["55"; "35"] = true).
  { intro H. apply String.eqb_eq, substring_351 in H. rewrite H. reflexivity. }
  destruct (is_add inf && antifake jsonGp), (is_add inf && antipt jsonGp),
    (existsb (String.eqb (substring0 2 p)) ["55"; "35"]),
    (String.eqb (substring0 3 p) "351"); cbn [negb];
    try (specialize (Hex eq_refl); discriminate);
    unfold call_remove, call_send; cbn;
    repeat (destruct (remove_err _ _ _); cbn); repeat (destruct (send_err _ _ _); cbn); lia.
Qed.

Lemma try_log_ok (m : M unit) (f : string -> string) :
  fst (try_catch m (fun e => log_error (f e))) = Ok tt.
Proof. destruct m as [[[] | e] t]; reflexivity. Qed.

Lemma exit_rule_never_throws (env : Env) (inf : MembershipEvent) (gm : GroupMetadata)
  (jsonGp : GroupConfig) :
  fst (exit_rule env inf gm jsonGp) = Ok tt.
Proof.
  unfold exit_rule. destruct (exit jsonGp) as [ex |]; [| reflexivity].
  destruct (_ && exit_enabled ex); [apply try_log_ok | reflexivity].
Qed.

(** The blacklist, welcome and exit rules never reject, whatever the
    network answers: their failures are caught and logged. *)
Theorem guarded_rules_never_throw (env : Env) (inf : MembershipEvent) (gm : GroupMetadata)
  (jsonGp : GroupConfig) :
  (exists b, fst (blacklist_rule env inf jsonGp) = Ok b) /\
  fst (welcome_rule env inf gm jsonGp) = Ok tt /\
  fst (exit_rule env inf gm jsonGp) = Ok tt.
Proof.
  split; [| split].
  - unfold blacklist_rule.
    destruct (is_add inf); [| eexists; reflexivity].
    destruct (blacklist jsonGp) as [bl |]; [| eexists; reflexivity].
    destruct (assoc_get (ev_first inf) bl) as [e |]; [| eexists; reflexivity].
    rewrite blacklist_actions_run. eexists. reflexivity.
  - unfold welcome_rule. destruct (is_add inf && bemvindo jsonGp); [| reflexivity].
    apply try_log_ok.
  - apply exit_rule_never_throws.
Qed.

Lemma exit_rule_not_remove (env : Env) (inf : MembershipEvent) (gm : GroupMetadata)
  (c : GroupConfig) :
  ev_action inf <> Remove -> exit_rule env inf gm c = ret tt.
Proof.
  intro H. unfold exit_rule. destruct (exit c) as [ex |]; [| reflexivity].
  destruct (ev_action inf); [reflexivity | contradiction | reflexivity | reflexivity].
Qed.

(** For a promotion or a demotion that passes the self-filter, with
    metadata and configuration available, the handler's only call after
    the lookup and the configuration read is the x9 announcement (when
    [x9] is on): no removal, no welcome and no farewell. *)
Theorem role_change_only_x9 (env : Env) (inf : MembershipEvent) (gm : GroupMetadata)
  (jsonGp : GroupConfig)
  (Hact : ev_action inf = Promote \/ ev_action inf = Demote)
  (Hself : self_event env inf = false)
  (Hmeta : fst (get_group_metadata env inf) = Ok (Some gm))
  (Hcfg : read_config env (ev_id inf) = Some jsonGp) :
  on_group_participants_update env inf =
  with_prefix (snd (get_group_metadata env inf) ++ [AReadConfig (ev_id inf)])
    (x9_rule env inf jsonGp).
Proof.
  rewrite (handler_prologue env inf gm jsonGp Hself Hmeta Hcfg).
  assert (Hadd : is_add inf = false)
    by (unfold is_add; destruct Hact as [-> | ->]; reflexivity).
  assert (Hrm : ev_action inf <> Remove) by (destruct Hact as [-> | ->]; discriminate).
  unfold antifake_rule, antipt_rule, blacklist_rule, welcome_rule.
  rewrite Hadd, (exit_rule_not_remove env inf gm jsonGp Hrm). cbn [andb].
  rewrite !bind_ret_l, bind_ret_unit. reflexivity.
Qed.

Lemma role_change_only_x9_witness :
  let cfg := {| x9 := true; antifake := true; antipt := true; blacklist := None;
                bemvindo := true; textbv := None; welcome_image := None;
                exit := Some {| exit_enabled := true; exit_text := None; exit_image := None |} |} in
  on_group_participants_update (sample_env (Some cfg) true true None)
    (sample_event Demote "12025550123@s.whatsapp.net") =
  with_prefix (snd (get_group_metadata (sample_env (Some cfg) true true None)
                      (sample_event Demote "12025550123@s.whatsapp.net"))
               ++ [AReadConfig sample_group])
    (x9_rule (sample_env (Some cfg) true true None)
       (sample_event Demote "12025550123@s.whatsapp.net") cfg).
Proof.
  intro cfg.
  apply (role_change_only_x9 (sample_env (Some cfg) true true None)
           (sample_event Demote "12025550123@s.whatsapp.net") sample_meta cfg);
    [right; reflexivity | vm_compute; reflexivity ..].
Defined.

(** For a departure ([remove]) that passes the self-filter, with metadata
    and configuration available, the handler never rejects and its only
    calls after the lookup and the configuration read are those of the
    farewell rule: in particular it never removes anyone. *)
Theorem departure_only_farewell (env : Env) (inf : MembershipEvent) (gm : GroupMetadata)
  (jsonGp : GroupConfig)
  (Hact : ev_action inf = Remove)
  (Hself : self_event env inf = false)
  (Hmeta : fst (get_group_metadata env inf) = Ok (Some gm))
  (Hcfg : read_config env (ev_id inf) = Some jsonGp) :
  on_group_participants_update env inf =
  with_prefix (snd (get_group_metadata env inf) ++ [AReadConfig (ev_id inf)])
    (exit_rule env inf gm jsonGp) /\
  fst (on_group_participants_update env inf) = Ok tt.
Proof.
  assert (H : on_group_participants_update env inf =
              with_prefix (snd (get_group_metadata env inf) ++ [AReadConfig (ev_id inf)])
                (exit_rule env inf gm jsonGp)).
  { rewrite (handler_prologue env inf gm jsonGp Hself Hmeta Hcfg).
    assert (Hadd : is_add inf = false) by (unfold is_add; rewrite Hact; reflexivity).
    unfold x9_rule, antifake_rule, antipt_rule, blacklist_rule, welcome_rule.
    rewrite Hadd, Hact. cbn [andb orb].
    rewrite !bind_ret_l. reflexivity. }
  split; [exact H |]. rewrite H. unfold with_prefix; cbn [fst].
  apply exit_rule_never_throws.
Qed.

Lemma departure_only_farewell_witness :
  let cfg := {| x9 := true; antifake := true; antipt := true; blacklist := None;
                bemvindo := true; textbv := None; welcome_image := None;
                exit := Some {| exit_enabled := true; exit_text := None; exit_image := None |} |} in
  fst (on_group_participants_update (sample_env (Some cfg) true true None)
         (sample_event Remove "12025550123@s.whatsapp.net")) = Ok tt.
Proof.
  intro cfg.
  apply (departure_only_farewell (sample_env (Some cfg) true true None)
           (sample_event Remove "12025550123@s.whatsapp.net") sample_meta cfg);
    vm_compute; reflexivity.
Defined.

(** When the welcome image is the word [banner], the welcome rule for an
    [add] first asks for the participant's profile picture and builds a
    banner on it, or on the default avatar when the picture cannot be
    obtained.  When the build rejects, the failure is logged and nothing is
    sent; otherwise the banner is sent and a rejected send is logged.  The
    rule always ends normally. *)
Theorem welcome_banner_avatar_fallback (env : Env) (inf : MembershipEvent)
  (gm : GroupMetadata) (jsonGp : GroupConfig)
  (Hadd : ev_action inf = Add) (Hbv : bemvindo jsonGp = true)
  (Himg : welcome_image jsonGp = Some "banner") :
  let p := ev_first inf in
  let avatar := match picture env p with Some u => u | None => default_avatar end in
  let msg := MImage (ImgBanner avatar "Bem-vindo(a)!" "Aceita um cafézinho enquanto lê as regras?")
               (format_template (pick_template (textbv jsonGp) (welcome_default p gm)) p gm)
               [p] in
  let fail e := ALog ("❌ Erro ao enviar mensagem de boas-vindas no grupo "
                      ++ ev_id inf ++ ": " ++ e) in
  welcome_rule env inf gm jsonGp =
  (Ok tt, AProfilePic p ::
          match banner_err env avatar with
          | Some e => [fail e]
          | None =>
              ASend (ev_id inf) msg ::
              match send_err env (ev_id inf) msg with
              | Some e => [fail e]
              | None => []
              end
          end).
Proof.
  cbn zeta. unfold welcome_rule, is_add. rewrite Hadd, Hbv, Himg.
  unfold call_picture, call_send. cbn [andb truthy_str show_opt negb].
  replace (String.eqb "banner" "") with false by reflexivity.
  replace (String.eqb "banner" "banner") with true by reflexivity. cbn [negb].
  generalize (format_template (pick_template (textbv jsonGp) (welcome_default (ev_first inf) gm))
                (ev_first inf) gm) as txt.
  intro txt. generalize default_avatar as dflt. intro dflt.
  destruct (picture env (ev_first inf)) as [u |]; cbn -[append];
    match goal with |- context [banner_err env ?a] => destruct (banner_err env a) end;
    cbn -[append]; try reflexivity;
    match goal with |- context [send_err env (ev_id inf) ?m] => destruct (send_err env (ev_id inf) m) end;
    reflexivity.
Qed.

Lemma welcome_banner_avatar_fallback_witness :
  let cfg := {| x9 := false; antifake := false; antipt := false; blacklist := None;
                bemvindo := true; textbv := None; welcome_image := Some "banner"; exit := None |} in
  welcome_rule (sample_env (Some cfg) true true None)
    (sample_event Add "5511911112222@s.whatsapp.net") sample_meta cfg =
  (Ok tt, [AProfilePic "5511911112222@s.whatsapp.net";
           ASend sample_group
             (MImage (ImgBanner default_avatar "Bem-vindo(a)!"
                        "Aceita um cafézinho enquanto lê as regras?")
                (format_template (welcome_default "5511911112222@s.whatsapp.net" sample_meta)
                   "5511911112222@s.whatsapp.net" sample_meta)
                ["5511911112222@s.whatsapp.net"])]).
Proof.
  intro cfg.
  rewrite (welcome_banner_avatar_fallback (sample_env (Some cfg) true true None)
             (sample_event Add "5511911112222@s.whatsapp.net") sample_meta cfg);
    [reflexivity | reflexivity | reflexivity | reflexivity].
Defined.

(** ** Connection lifecycle *)

Ltac no_act := intros H; repeat (destruct H as [H | H]; [discriminate |]); destruct H.

(** On a close of the secondary session, the secondary credential
    directory's removal is requested exactly on a logout ([loggedOut] or
    401); the primary session's directory, [end()] and [startNazu()] are
    never touched.  When no removal is needed or it succeeds, the handler
    ends normally and its last call schedules the re-creation of the
    secondary session 5 s later; when the removal rejects, the handler
    rejects with that error and nothing is scheduled. *)
Theorem secondary_close_reschedules (loggedOut : nat) (rm_err : option string)
  (reason : option nat) :
  let r := on_secondary_connection_update loggedOut rm_err
             {| connection := Some Close; status_code := reason |} in
  let resched := ASchedule 5000 (ACreateSocket AUTH_DIR_SECONDARY false) in
  (In (ARmDir AUTH_DIR_SECONDARY) (snd r) <-> reason = Some loggedOut \/ reason = Some 401) /\
  ~ In (ARmDir AUTH_DIR_PRIMARY) (snd r) /\ ~ In AStartNazu (snd r) /\ ~ In AEnd (snd r) /\
  (((reason = Some loggedOut \/ reason = Some 401) -> rm_err = None) ->
   fst r = Ok tt /\ exists pre, snd r = (pre ++ [resched])%list) /\
  (forall e, (reason = Some loggedOut \/ reason = Some 401) -> rm_err = Some e ->
   fst r = Throw e /\ ~ In resched (snd r)).
Proof.
  cbn zeta. pose proof (is_logout_spec loggedOut reason) as Hspec.
  unfold on_secondary_connection_update, call_rm; cbn -[is_logout show_code append].
  destruct (is_logout loggedOut reason) eqn:Hl.
  - assert (Hlog : reason = Some loggedOut \/ reason = Some 401) by (apply Hspec; reflexivity).
    destruct rm_err as [m |]; cbn -[append].
    + split; [split; [intros _; exact Hlog | intros _; right; left; reflexivity] |].
      split; [no_act | split; [no_act | split; [no_act |]]].
      split; [intros H; specialize (H Hlog); discriminate |].
      intros e _ He. injection He as <-. split; [reflexivity | no_act].
    + split; [split; [intros _; exact Hlog | intros _; right; left; reflexivity] |].
      split; [no_act | split; [no_act | split; [no_act |]]].
      split; [intros _ | intros e _ He; discriminate].
      split; [reflexivity |].
      match goal with |- exists pre, ?l = _ => exists (removelast l); reflexivity end.
  - assert (Hnl : ~ (reason = Some loggedOut \/ reason = Some 401))
      by (rewrite <- Hspec; discriminate).
    cbn -[append].
    split; [split; [no_act | intros H; contradiction] |].
    split; [no_act | split; [no_act | split; [no_act |]]].
    split; [intros _ | intros e H; contradiction].
    split; [reflexivity |].
      match goal with |- exists pre, ?l = _ => exists (removelast l); reflexivity end.
Qed.

(** The disconnect message table is an object literal: a later duplicate
    key overwrites an earlier one.  With the protocol library's codes,
    where [loggedOut] is 401 and [connectionLost] equals [timedOut], the
    messages "Deslogado do WhatsApp" and "Conexão perdida" are never
    logged, whatever the close reason. *)
Theorem shadowed_reason_messages
  (loggedOut connectionClosed connectionLost connectionReplaced timedOut badSession
   restartRequired : nat)
  (H401 : loggedOut = 401) (Hlost : connectionLost = timedOut) (reason : option nat) :
  reason_message loggedOut connectionClosed connectionLost connectionReplaced timedOut
    badSession restartRequired reason <> "Deslogado do WhatsApp" /\
  reason_message loggedOut connectionClosed connectionLost connectionReplaced timedOut
    badSession restartRequired reason <> "Conexão perdida".
Proof.
  subst loggedOut connectionLost.
  destruct reason as [n |]; [| split; discriminate].
  unfold reason_message, reason_table. cbn [last_assoc].
  destruct (Nat.eqb n restartRequired), (Nat.eqb n badSession), (Nat.eqb n timedOut),
    (Nat.eqb n connectionReplaced), (Nat.eqb n connectionClosed), (Nat.eqb n 401);
    split; discriminate.
Qed.

Lemma shadowed_reason_messages_witness :
  reason_message 401 428 408 440 408 500 515 (Some 401) = "Sessão expirada" /\
  reason_message 401 428 408 440 408 500 515 (Some 408) = "Tempo de conexão esgotado" /\
  reason_message 401 428 408 440 408 500 515 (Some 401) <> "Deslogado do WhatsApp".
Proof.
  split; [vm_compute; reflexivity |]. split; [vm_compute; reflexivity |].
  apply (shadowed_reason_messages 401 428 408 440 408 500 515 eq_refl eq_refl (Some 401)).
Defined.

(** ** Resource loader *)

Lemma fst_bind_ok {A B} (m : M A) (f : A -> M B) (a : A) :
  fst m = Ok a -> fst (bind m f) = fst (f a).
Proof.
  destruct m as [[a' | e] t]; cbn; intro H; [injection H as -> | discriminate].
  destruct (f a); reflexivity.
Qed.

Lemma load_module_async_value (import_mod : string -> string + ModuleNs) (p : string) :
  fst (load_module_async import_mod p) = Ok (module_value (import_mod p)).
Proof. unfold load_module_async, module_value. destruct (import_mod p); reflexivity. Qed.

Lemma load_json_value (read_file : string -> string + string)
  (json_parse : string -> string + JV) (p : string) :
  fst (load_json read_file json_parse p) = Ok (json_value read_file json_parse p).
Proof.
  unfold load_json, json_value.
  destruct (read_file p) as [m | d]; [reflexivity |].
  destruct (json_parse d); reflexivity.
Qed.

Lemma map_m_modules (import_mod : string -> string + ModuleNs) (l : list (string * string)) :
  fst (map_m (fun kp => let* m := load_module_async import_mod (snd kp) in ret (fst kp, m)) l)
  = Ok (map (fun kp => (fst kp, module_value (import_mod (snd kp)))) l).
Proof.
  induction l as [| kp l IH]; [reflexivity |]. cbn [map_m map].
  rewrite (fst_bind_ok _ _ (fst kp, module_value (import_mod (snd kp)))).
  - rewrite (fst_bind_ok _ _ _ IH). reflexivity.
  - rewrite (fst_bind_ok _ _ _ (load_module_async_value import_mod (snd kp))). reflexivity.
Qed.

Lemma load_resources_value (import_mod : string -> string + ModuleNs)
  (read_file : string -> string + string) (json_parse : string -> string + JV) :
  let loaded := (map (fun kp => (fst kp, module_value (import_mod (snd kp)))) local_module_paths
                 ++ [("toolsJson", json_value read_file json_parse "json/tools.json");
                     ("vabJson", json_value read_file json_parse "json/vab.json")])%list in
  fst (load_resources import_mod read_file json_parse) =
  Ok (obj_set (obj_set (obj_set (obj_set loaded
        "sendSticker" (get_field (get_field (JObj loaded) "stickerModule") "sendSticker"))
        "stickerModule" JUndefined)
        "toolsJson" (JThunk (get_field (JObj loaded) "toolsJson")))
        "vabJson" (JThunk (get_field (JObj loaded) "vabJson"))).
Proof.
  cbn zeta. unfold load_resources.
  rewrite (fst_bind_ok _ _ _ (map_m_modules import_mod local_module_paths)).
  rewrite (fst_bind_ok _ _ _ (load_json_value read_file json_parse "json/tools.json")).
  rewrite (fst_bind_ok _ _ _ (load_json_value read_file json_parse "json/vab.json")).
  reflexivity.
Qed.

(** The loader never rejects and never ends the process: each local
    module other than the sticker module (fifteen of the sixteen keys) is
    exported under its key as its default export (or its namespace when it
    has none), and a module whose import fails is exported as [undefined]
    without affecting any other key. *)
Theorem loader_isolates_module_failures (import_mod : string -> string + ModuleNs)
  (read_file : string -> string + string) (json_parse : string -> string + JV) :
  exists fs,
    fst (load_resources import_mod read_file json_parse) = Ok fs /\
    forall k p, In (k, p) local_module_paths -> k <> "stickerModule" ->
      obj_get fs k = module_value (import_mod p).
Proof.
  pose proof (load_resources_value import_mod read_file json_parse) as H. cbn zeta in H.
  eexists. split; [exact H |].
  intros k p Hin Hk.
  repeat (destruct Hin as [Hin | Hin];
          [injection Hin as <- <-; first [reflexivity | contradiction] |]).
  destruct Hin.
Qed.

(** The export object overrides four keys of the loaded modules: the
    sticker module itself is not exported ([stickerModule] is
    [undefined]); [sendSticker] is the sticker module's [sendSticker], so
    [undefined] when that module fails to import; and [toolsJson] and
    [vabJson] are functions returning the parsed file, or [undefined] when
    the file cannot be read or is not valid JSON. *)
Theorem loader_lifts_send_sticker (import_mod : string -> string + ModuleNs)
  (read_file : string -> string + string) (json_parse : string -> string + JV) :
  exists fs,
    fst (load_resources import_mod read_file json_parse) = Ok fs /\
    obj_get fs "stickerModule" = JUndefined /\
    (forall m, import_mod "utils/sticker.js" = inl m -> obj_get fs "sendSticker" = JUndefined) /\
    (forall ns, import_mod "utils/sticker.js" = inr ns ->
       obj_get fs "sendSticker" = get_field (default_or_namespace ns) "sendSticker") /\
    json_export read_file json_parse fs "toolsJson" "json/tools.json" /\
    json_export read_file json_parse fs "vabJson" "json/vab.json".
Proof.
  pose proof (load_resources_value import_mod read_file json_parse) as H. cbn zeta in H.
  eexists. split; [exact H |].
  split; [reflexivity |].
  split; [intros m Hm; cbn; rewrite Hm; reflexivity |].
  split; [intros ns Hns; cbn; rewrite Hns; reflexivity |].
  split; (split; [intros m Hm | split; [intros d m Hd Hp | intros d v Hd Hp]]);
    cbn; unfold json_value; rewrite ?Hm, ?Hd, ?Hp; reflexivity.
Qed.

(** ** YouTube downloads *)

(** Without an API key (missing or empty), [search], [mp3] and [mp4]
    reject with "API key inválida ou expirada: API key não fornecida":
    their own "API key não fornecida" error contains the phrase "api key",
    so it is classified as a key error and rethrown instead of being
    returned as [{ ok: false }].  No request is made: the result does not
    depend on the endpoint's answers. *)
Theorem youtube_missing_key_rethrown (query url : string) (quality apiKey : option string)
  (now : nat) (post_search : string -> string -> AxiosError + SearchBody)
  (post_dl : string -> string -> string -> AxiosError + string)
  (Hkey : truthy_str apiKey = false) :
  yt_search query apiKey post_search =
    (Throw "API key inválida ou expirada: API key não fornecida",
     [ALog "Erro na busca YouTube: API key não fornecida"]) /\
  yt_mp3 url quality apiKey now post_dl =
    (Throw "API key inválida ou expirada: API key não fornecida",
     [ALog "Erro no download MP3: API key não fornecida"]) /\
  yt_mp4 url quality apiKey now post_dl =
    (Throw "API key inválida ou expirada: API key não fornecida",
     [ALog "Erro no download MP4: API key não fornecida"]).
Proof.
  unfold yt_search, yt_mp3, yt_mp4, yt_download. rewrite Hkey. cbn [negb].
  split; [| split]; vm_compute; reflexivity.
Qed.

Lemma youtube_missing_key_rethrown_witness :
  yt_search "lofi" (Some "") (fun _ _ => inr {| sb_success := true; sb_data := Some "[]" |}) =
    (Throw "API key inválida ou expirada: API key não fornecida",
     [ALog "Erro na busca YouTube: API key não fornecida"]).
Proof.
  apply (youtube_missing_key_rethrown "lofi" "https://youtu.be/x" None (Some "") 0
           (fun _ _ => inr {| sb_success := true; sb_data := Some "[]" |})
           (fun _ _ _ => inr "")).
  reflexivity.
Defined.

(** A request rejected with status 401, 403 or 429 makes [search], [mp3]
    and [mp4] reject with the key error, whose text is the response's
    [message] when it has one and the request error's message otherwise. *)
Theorem youtube_auth_status_rethrown (query url k : string) (quality : option string)
  (now : nat) (e : AxiosError) (s : nat)
  (post_search : string -> string -> AxiosError + SearchBody)
  (post_dl : string -> string -> string -> AxiosError + string)
  (Hk : k <> "") (Hs : resp_status e = Some s) (Hcode : In s [401; 403; 429])
  (Hps : post_search query k = inl e)
  (Hp3 : post_dl url "mp3" k = inl e) (Hp4 : post_dl url "360p" k = inl e) :
  fst (yt_search query (Some k) post_search)
    = Throw ("API key inválida ou expirada: " ++ err_detail e) /\
  fst (yt_mp3 url quality (Some k) now post_dl)
    = Throw ("API key inválida ou expirada: " ++ err_detail e) /\
  fst (yt_mp4 url quality (Some k) now post_dl)
    = Throw ("API key inválida ou expirada: " ++ err_detail e).
Proof.
  assert (Hkey : is_api_key_error (Some e) = true).
  { unfold is_api_key_error. rewrite Hs.
    destruct Hcode as [<- | [<- | [<- | []]]]; reflexivity. }
  assert (Ht : truthy_str (Some k) = true).
  { cbn. destruct (String.eqb_spec k ""); [contradiction | reflexivity]. }
  unfold yt_search, yt_mp3, yt_mp4, yt_download, yt_catch. rewrite Ht. cbn [negb show_opt].
  rewrite Hps, Hp3, Hp4, Hkey.
  split; [| split]; reflexivity.
Qed.

Lemma youtube_auth_status_rethrown_witness :
  fst (yt_search "lofi" (Some "k-123")
         (fun _ _ => inl {| err_message := "Request failed with status code 403";
                            resp_status := Some 403;
                            resp_data := RDObject "{}" (Some "Chave bloqueada") |}))
  = Throw "API key inválida ou expirada: Chave bloqueada".
Proof.
  apply (youtube_auth_status_rethrown "lofi" "https://youtu.be/x" "k-123" None 0
           {| err_message := "Request failed with status code 403"; resp_status := Some 403;
              resp_data := RDObject "{}" (Some "Chave bloqueada") |} 403
           (fun _ _ => inl {| err_message := "Request failed with status code 403";
                              resp_status := Some 403;
                              resp_data := RDObject "{}" (Some "Chave bloqueada") |})
           (fun _ _ _ => inl {| err_message := "Request failed with status code 403";
                                resp_status := Some 403;
                                resp_data := RDObject "{}" (Some "Chave bloqueada") |}));
    [discriminate | reflexivity | right; left; reflexivity | reflexivity ..].
Defined.

(** When the search endpoint answers, [search] never rejects: an answer
    without [success] or without [data] gives
    [{ ok: false, msg: 'Erro ao buscar vídeo: Resposta inválida da API' }],
    since that error is not a key error. *)
Theorem youtube_search_answer_never_rejects (query k : string)
  (post : string -> string -> AxiosError + SearchBody) (d : SearchBody)
  (Hk : k <> "") (Hpost : post query k = inr d) :
  (forall e, fst (yt_search query (Some k) post) <> Throw e) /\
  (sb_success d = false \/ sb_data d = None ->
   yt_search query (Some k) post =
     (Ok (SearchFail "Erro ao buscar vídeo: Resposta inválida da API"),
      [ALog "Erro na busca YouTube: Resposta inválida da API"])).
Proof.
  assert (Ht : truthy_str (Some k) = true).
  { cbn. destruct (String.eqb_spec k ""); [contradiction | reflexivity]. }
  unfold yt_search. rewrite Ht. cbn [negb show_opt]. rewrite Hpost.
  destruct d as [[] [x |]]; cbn [sb_success sb_data].
  - split; [intros e H; discriminate | intros [H | H]; discriminate].
  - split; [vm_compute; intros e H; discriminate | intros _; vm_compute; reflexivity].
  - split; [vm_compute; intros e H; discriminate | intros _; vm_compute; reflexivity].
  - split; [vm_compute; intros e H; discriminate | intros _; vm_compute; reflexivity].
Qed.

Lemma youtube_search_answer_never_rejects_witness :
  yt_search "lofi" (Some "k-123") (fun _ _ => inr {| sb_success := false; sb_data := None |}) =
    (Ok (SearchFail "Erro ao buscar vídeo: Resposta inválida da API"),
     [ALog "Erro na busca YouTube: Resposta inválida da API"]).
Proof.
  apply (youtube_search_answer_never_rejects "lofi" "k-123"
           (fun _ _ => inr {| sb_success := false; sb_data := None |})
           {| sb_success := false; sb_data := None |});
    [discriminate | reflexivity | left; reflexivity].
Defined.

(** [mp3] always asks the endpoint for quality ["mp3"] and [mp4] for
    ["360p"], whatever quality the caller passes: the bytes returned are
    those of that one request, and the requested quality (128 and 360 by
    default) only shows in the file name and the quality label. *)
Theorem youtube_quality_only_relabels (url k : string) (quality : option string) (now : nat)
  (post : string -> string -> string -> AxiosError + string) (raw3 raw4 : string)
  (Hk : k <> "") (Hp3 : post url "mp3" k = inr raw3) (Hp4 : post url "360p" k = inr raw4) :
  let q3 := match quality with Some s => s | None => "128" end in
  let q4 := match quality with Some s => s | None => "360" end in
  yt_mp3 url quality (Some k) now post =
    (Ok (DownloadOk {| dl_buffer := raw3;
                       dl_filename := "audio_" ++ js_number_to_string now ++ "_" ++ q3 ++ "kbps.mp3";
                       dl_quality := q3 ++ "kbps" |}), []) /\
  yt_mp4 url quality (Some k) now post =
    (Ok (DownloadOk {| dl_buffer := raw4;
                       dl_filename := "video_" ++ js_number_to_string now ++ "_" ++ q4 ++ "p.mp4";
                       dl_quality := q4 ++ "p" |}), []).
Proof.
  assert (Ht : truthy_str (Some k) = true).
  { cbn. destruct (String.eqb_spec k ""); [contradiction | reflexivity]. }
  cbn zeta. unfold yt_mp3, yt_mp4, yt_download. rewrite Ht. cbn [negb show_opt].
  rewrite Hp3, Hp4.
  assert (Happ : forall a b c, ((a ++ b) ++ c = a ++ b ++ c)%string)
    by (intros a b c; induction a as [| x a IH]; cbn; [reflexivity | rewrite IH; reflexivity]).
  split; cbn [ret]; rewrite ?Happ; reflexivity.
Qed.

Lemma youtube_quality_only_relabels_witness :
  yt_mp3 "https://youtu.be/x" (Some "320") (Some "k-123") 1700
    (fun _ q _ => inr ("bytes-" ++ q)) =
    (Ok (DownloadOk {| dl_buffer := "bytes-mp3";
                       dl_filename := "audio_" ++ js_number_to_string 1700 ++ "_320kbps.mp3";
                       dl_quality := "320kbps" |}), []).
Proof.
  apply (youtube_quality_only_relabels "https://youtu.be/x" "k-123" (Some "320") 1700
           (fun _ q _ => inr ("bytes-" ++ q)) "bytes-mp3" "bytes-360p");
    [discriminate | reflexivity | reflexivity].
Defined.

Lemma split_first_strip_at (n r : string) :
  split_first "@" (strip_non_digits n ++ String "@" r) = strip_non_digits n.
Proof.
  induction n as [| c n IH]; [reflexivity |]. cbn.
  destruct (is_digit c) eqn:Hd; [| exact IH].
  cbn. rewrite IH.
  replace (Ascii.eqb c "@") with false; [reflexivity |].
  symmetry. apply Ascii.eqb_neq. intros ->. discriminate Hd.
Qed.

(** The API-key alert to the owner never rejects: the first call sends
    the alert to [ownerNumber] with every non-digit removed, followed by
    [@s.whatsapp.net]; a rejected send is logged.  Without an owner number
    the recipient is the literal ["undefined@s.whatsapp.net"]. *)
Theorem notify_owner_never_throws (send_text_err : string -> string -> option string)
  (ownerNumber err : option string) (command date : string) :
  let r := notify_owner_about_api_key send_text_err ownerNumber err command date in
  fst r = Ok tt /\
  hd_error (snd r) = Some (ASend (owner_id ownerNumber) (MText (api_key_alert command err date) [])) /\
  (forall n, ownerNumber = Some n -> split_first "@" (owner_id ownerNumber) = strip_non_digits n) /\
  (ownerNumber = None -> owner_id ownerNumber = "undefined@s.whatsapp.net").
Proof.
  cbn zeta. split; [| split; [| split]].
  - unfold notify_owner_about_api_key.
    destruct (send_text_err (owner_id ownerNumber) (api_key_alert command err date)); reflexivity.
  - unfold notify_owner_about_api_key, try_catch.
    destruct (send_text_err (owner_id ownerNumber) (api_key_alert command err date)); reflexivity.
  - intros n ->. apply split_first_strip_at.
  - intros ->. reflexivity.
Qed.

(** ** Sticker module *)

Lemma is_riff_webp_length (b : string) :
  is_riff_webp b = true -> 12 <= String.length b.
Proof.
  unfold is_riff_webp. intros H. apply andb_prop in H as [_ H].
  apply String.eqb_eq in H.
  destruct (Nat.le_gt_cases 12 (String.length b)) as [Hle | Hlt]; [exact Hle |].
  exfalso. assert (Hl : String.length (substring 8 4 b) = 4) by (rewrite H; reflexivity).
  revert Hl Hlt. clear H.
  assert (Hs : forall n m s, String.length (substring n m s) <= String.length s - n).
  { induction n as [|n IH]; intros m s.
    - revert s. induction m as [|m IHm]; intros [|c s]; cbn; try lia.
      specialize (IHm s). lia.
    - destruct s as [|c s]; cbn; [lia|]. apply IH. }
  specialize (Hs 8 4 b). lia.
Qed.

Lemma resolve_no_log db hg rf input :
  snd (resolve_input_to_buffer db hg rf input) = [].
Proof.
  destruct input as [b | s | [u|] |]; cbn -[data_url http_url]; try reflexivity.
  - destruct (data_url s); [reflexivity|].
    destruct (http_url s).
    + unfold get_buffer. destruct (hg s) as [d|e]; [|reflexivity].
      destruct (Nat.eqb (String.length d) 0); reflexivity.
    + destruct (rf s); reflexivity.
  - destruct (String.eqb u ""); [reflexivity|].
    unfold get_buffer. destruct (hg u) as [d|e]; [|reflexivity].
    destruct (Nat.eqb (String.length d) 0); reflexivity.
Qed.

Lemma fst_bind {A B} (m : M A) (f : A -> M B) :
  fst (bind m f) = match fst m with Ok a => fst (f a) | Throw e => Throw e end.
Proof.
  destruct m as [[a | e] t]; cbn; [destruct (f a) |]; reflexivity.
Qed.

(** X20 (sendSticker, convertToWebp): an image that already is a static
    WebP and carries no pack name or author is sent and returned as it was
    given, whatever the converter would do. *)
Theorem static_webp_sent_unchanged (se : StickerEnv) jid b forceSquare
  (Hw : is_riff_webp b = true) (Hs : st_send_err se jid b = None) :
  fst (send_sticker se jid (SBuffer b) "image" "" "" forceSquare) = Ok b.
Proof.
  pose proof (is_riff_webp_length b Hw) as Hl.
  unfold send_sticker. cbn -[convert_to_webp js_number_to_string append].
  replace (String.length b <=? 9)%nat with false by (symmetry; apply Nat.leb_gt; lia).
  unfold convert_to_webp. cbn -[is_riff_webp js_number_to_string append]. rewrite Hw.
  cbn -[js_number_to_string append]. rewrite Hs. reflexivity.
Qed.

Lemma static_webp_sent_unchanged_witness :
  is_riff_webp webp_sample = true /\
  fst (send_sticker (sticker_env_sample (fun _ _ _ => Throw "x") (fun _ _ => None))
         "1@g.us" (SBuffer webp_sample) "image" "" "" false) = Ok webp_sample.
Proof.
  split; [vm_compute; reflexivity|].
  apply static_webp_sent_unchanged; vm_compute; reflexivity.
Defined.

(** X21 (sendSticker): a type other than "image" or "video" is rejected
    before the input is read or downloaded, with nothing logged. *)
Theorem sticker_bad_type_rejected_first (se : StickerEnv) jid input type_ pack author fsq
  (Ht : type_ <> "image") (Hv : type_ <> "video") :
  send_sticker se jid input type_ pack author fsq =
  (Throw ("Tipo deve ser " ++ dq ++ "image" ++ dq ++ " ou " ++ dq ++ "video" ++ dq), []).
Proof.
  unfold send_sticker. cbn [existsb].
  apply String.eqb_neq in Ht, Hv. rewrite Ht, Hv. reflexivity.
Qed.

Lemma sticker_bad_type_rejected_first_witness :
  send_sticker (sticker_env_sample (fun _ _ _ => Throw "x") (fun _ _ => None))
    "1@g.us" (SString "https://x.test/a.gif") "gif" "" "" false =
  (Throw ("Tipo deve ser " ++ dq ++ "image" ++ dq ++ " ou " ++ dq ++ "video" ++ dq), []).
Proof.
  apply sticker_bad_type_rejected_first; discriminate.
Defined.

(** X22 (sendSticker, resolveInputToBuffer): when the input resolves to
    fewer than 10 bytes the call fails with "Buffer inválido/vazio" before
    anything is logged, converted or sent. *)
Theorem sticker_short_buffer_rejected (se : StickerEnv) jid input type_ pack author fsq b
  (Ht : type_ = "image" \/ type_ = "video")
  (Hr : fst (resolve_input_to_buffer (st_base64_decode se) (st_http_get se)
               (st_read_file se) input) = Ok b)
  (Hl : String.length b < 10) :
  send_sticker se jid input type_ pack author fsq = (Throw "Buffer inválido/vazio", []).
Proof.
  pose proof (resolve_no_log (st_base64_decode se) (st_http_get se) (st_read_file se) input) as Hn.
  unfold send_sticker.
  replace (existsb (String.eqb type_) ["image"; "video"]) with true
    by (destruct Ht; subst; reflexivity).
  cbn [negb].
  destruct (resolve_input_to_buffer (st_base64_decode se) (st_http_get se) (st_read_file se) input)
    as [o l] eqn:E.
  cbn in Hr, Hn. subst o l. cbn -[append].
  replace (String.length b <=? 9)%nat with true by (symmetry; apply Nat.leb_le; lia).
  reflexivity.
Qed.

Lemma sticker_short_buffer_rejected_witness :
  send_sticker (sticker_env_sample (fun _ _ _ => Throw "x") (fun _ _ => None))
    "1@g.us" (SString "data:image/png;base64,AAAA") "image" "p" "" false =
  (Throw "Buffer inválido/vazio", []).
Proof.
  apply (sticker_short_buffer_rejected _ _ _ _ _ _ _ "AAAA");
    [left; reflexivity | vm_compute; reflexivity | cbn; lia].
Defined.

(** X23 (getBuffer, resolveInputToBuffer): an http(s) URL or an object's
    [url] whose download is empty fails with "Download vazio"; the input
    is never treated as a file path or data. *)
Theorem empty_download_rejected db hg rf input u
  (Hi : (input = SString u /\ data_url u = false /\ http_url u = true)
        \/ (input = SObject (Some u) /\ u <> ""))
  (Hg : hg u = Ok "") :
  resolve_input_to_buffer db hg rf input = (Throw "Download vazio", []).
Proof.
  destruct Hi as [[-> [Hd Hh]] | [-> Hu]]; cbn -[data_url http_url].
  - rewrite Hd, Hh. unfold get_buffer. rewrite Hg. reflexivity.
  - apply String.eqb_neq in Hu. rewrite Hu. unfold get_buffer. rewrite Hg. reflexivity.
Qed.

Lemma empty_download_rejected_witness :
  resolve_input_to_buffer (fun s => s)
    (st_http_get (sticker_env_sample (fun _ _ _ => Throw "x") (fun _ _ => None)))
    (fun _ => Throw "ENOENT") (SString "https://x.test/empty") = (Throw "Download vazio", []).
Proof.
  apply (empty_download_rejected _ _ _ _ "https://x.test/empty").
  - left. split; [reflexivity | split; vm_compute; reflexivity].
  - vm_compute. reflexivity.
Defined.

(** X24 (sendSticker, writeExif): a failure while writing the EXIF
    metadata never fails the sticker: the outcome is the one of the same
    call without pack name and author. *)
Theorem exif_failure_keeps_sticker (se : StickerEnv) jid input type_ pack author fsq
  (Hm : forall b p a, exists e, st_webpmux se b p a = Throw e) :
  fst (send_sticker se jid input type_ pack author fsq) =
  fst (send_sticker se jid input type_ "" "" fsq).
Proof.
  unfold send_sticker.
  destruct (negb (existsb (String.eqb type_) ["image"; "video"])); [reflexivity|].
  rewrite ?fst_bind.
  destruct (fst (resolve_input_to_buffer _ _ _ input)) as [b|e]; [|reflexivity].
  destruct (Nat.ltb (String.length b) 10); [reflexivity|].
  rewrite ?fst_bind. cbn [fst log_info emit].
  rewrite ?fst_bind.
  destruct (fst (convert_to_webp _ _ _ _ b _ fsq)) as [w|e]; [|reflexivity].
  rewrite ?fst_bind.
  replace (negb (String.eqb "" "") || negb (String.eqb "" "")) with false by reflexivity.
  destruct (negb (String.eqb pack "") || negb (String.eqb author "")); [|reflexivity].
  unfold write_exif. destruct (Hm w pack author) as [e He]. rewrite He.
  rewrite fst_bind. reflexivity.
Qed.

Lemma exif_failure_keeps_sticker_witness :
  fst (send_sticker (sticker_env_sample (fun _ _ _ => Throw "Invalid WebP") (fun _ _ => None))
         "1@g.us" (SString "https://x.test/a.png") "image" "Nazuna" "bot" false) =
  fst (send_sticker (sticker_env_sample (fun _ _ _ => Throw "Invalid WebP") (fun _ _ => None))
         "1@g.us" (SString "https://x.test/a.png") "image" "" "" false).
Proof.
  apply exif_failure_keeps_sticker. intros b p a. exists "Invalid WebP". reflexivity.
Defined.

(** X25 (sendSticker, convertToWebp): a video is never passed through,
    even when its bytes are a WebP: without pack name or author, the
    outcome is the failure to write the temporary input if it fails, and
    otherwise the one of ffmpeg run with the video options (15 fps, at most
    8 seconds, no audio) and of the read of its output; an empty output is
    an error. *)
Theorem video_always_converted (se : StickerEnv) jid b fsq
  (Hl : 10 <= String.length b) (Hs : forall w, st_send_err se jid w = None) :
  fst (send_sticker se jid (SBuffer b) "video" "" "" fsq) =
  match st_tmp_err se with
  | Some e => Throw e
  | None =>
      match st_ffmpeg se b (webp_options true fsq) with
      | Ok out => if Nat.eqb (String.length out) 0 then Throw "Conversão falhou: saída vazia"
                  else match st_read_out_err se with Some e => Throw e | None => Ok out end
      | Throw e => Throw e
      end
  end
  /\ In "-an" (webp_options true fsq)
  /\ webp_options true fsq = (firstn 17 (webp_options true fsq) ++ ["-t"; "8"])%list
  /\ (exists vf, nth 1 (webp_options true fsq) "" = vf ++ ",fps=15").
Proof.
  split.
  - unfold send_sticker. cbn -[convert_to_webp js_number_to_string append webp_options].
    replace (String.length b <=? 9)%nat with false by (symmetry; apply Nat.leb_gt; lia).
    unfold convert_to_webp. cbn -[js_number_to_string append webp_options].
    destruct (st_tmp_err se) as [e |]; [reflexivity |].
    replace (String.length b =? 0)%nat with false by (symmetry; apply Nat.eqb_neq; lia).
    destruct (st_ffmpeg se b (webp_options true fsq)) as [out|e]; cbn -[js_number_to_string append webp_options].
    + destruct (String.length out =? 0)%nat; cbn -[js_number_to_string append]; [reflexivity|].
      destruct (st_read_out_err se); cbn -[js_number_to_string append]; [reflexivity |].
      rewrite Hs. reflexivity.
    + reflexivity.
  - destruct fsq; (split; [cbn; tauto | split; [reflexivity | eexists; reflexivity]]).
Qed.

Lemma video_always_converted_witness :
  fst (send_sticker (sticker_env_sample (fun _ _ _ => Throw "x") (fun _ _ => None))
         "1@g.us" (SBuffer webp_sample) "video" "" "" false) =
  Ok ("RIFF0000WEBP" ++ webp_sample).
Proof.
  rewrite (proj1 (video_always_converted
    (sticker_env_sample (fun _ _ _ => Throw "x") (fun _ _ => None)) "1@g.us" webp_sample false
    ltac:(apply Nat.leb_le; reflexivity) (fun _ => eq_refl))).
  vm_compute. reflexivity.
Defined.
